(** * Context lifecycle and pruning engine of [ask]

    A shallow embedding of [internal/context] (store, pruner, manager) of the
    [ask] command-line assistant, and the properties of its pruning policy.

    Conventions of the embedding.
    - Go [int] is a 64-bit two's-complement integer.  It is represented by
      [Z]; the accumulating operations of the code ([+=], [++]) wrap around
      through [wrap].  [len] of a slice or string is a non-negative [int] and
      is represented exactly.
    - Go strings are byte sequences: [string] of the standard library, one
      [ascii] per byte.
    - [time.Time] is an instant in nanoseconds; the clock ([time.Now]) is an
      explicit argument.
    - The store is mutated through a pointer in the code; here functions that
      cannot fail are store transformers, and functions that return an
      [error] or may panic run in the monad [M]. *)

From Stdlib Require Import ZArith String Ascii List Bool Lia.
From stdpp Require Import base option list gmap pretty.

Local Open Scope string_scope.
Local Open Scope Z_scope.

(** ** Go integers *)

Definition int_min : Z := - 2 ^ 63.
Definition int_max : Z := 2 ^ 63 - 1.

(** Two's-complement wrap-around of a 64-bit signed integer. *)
Definition wrap (z : Z) : Z := (z + 2 ^ 63) `mod` 2 ^ 64 - 2 ^ 63.

Definition int_add (a b : Z) : Z := wrap (a + b).

(** [len] of a slice. *)
Definition len {A : Type} (l : list A) : Z := Z.of_nat (length l).

(** [len] of a string, in bytes. *)
Definition strlen (s : string) : Z := Z.of_nat (String.length s).

(** ** Go strings *)

Module strings.

(** [strings.HasPrefix]. *)
Definition HasPrefix (s prefix : string) : bool := String.prefix prefix s.

(** [strings.Contains]: [substr] occurs in [s] at some byte offset. *)
Fixpoint Contains (s substr : string) : bool :=
  match s with
  | EmptyString => HasPrefix s substr
  | String _ rest => HasPrefix s substr || Contains rest substr
  end.

(** Lower-casing of one byte.  Only the ASCII letters are mapped; Go's
    [unicode.ToLower] also maps letters outside ASCII, which are encoded
    with bytes of value 128 and above and which this model leaves alone. *)
Definition lower_byte (c : ascii) : ascii :=
  let n := N_of_ascii c in
  if ((65 <=? n) && (n <=? 90))%N then ascii_of_N (n + 32) else c.

(** [strings.ToLower], on ASCII text. *)
Fixpoint ToLower (s : string) : string :=
  match s with
  | EmptyString => EmptyString
  | String c rest => String (lower_byte c) (ToLower rest)
  end.

(** [strings.TrimPrefix]. *)
Definition TrimPrefix (s prefix : string) : string :=
  if HasPrefix s prefix
  then substring (String.length prefix) (String.length s - String.length prefix) s
  else s.

(** [strings.HasSuffix]. *)
Definition HasSuffix (s suffix : string) : bool :=
  (String.length suffix <=? String.length s)%nat &&
  String.eqb
    (substring (String.length s - String.length suffix) (String.length suffix) s)
    suffix.

(** [strings.TrimSuffix]. *)
Definition TrimSuffix (s suffix : string) : string :=
  if HasSuffix s suffix
  then substring 0 (String.length s - String.length suffix) s
  else s.

(** [strings.Repeat], for a non-negative count. *)
Definition Repeat (s : string) (count : Z) : string :=
  Z.iter count (String.append s) EmptyString.

End strings.

(** The byte slice [s[:n]] of a string, for [0 <= n <= len(s)]. *)
Definition str_take (n : nat) (s : string) : string := substring 0 n s.

(** [%d] of [fmt.Sprintf]. *)
Definition itoa (z : Z) : string := pretty z.

(** The line feed, written [\n] in the Go sources. *)
Definition nl : string := String (ascii_of_nat 10) EmptyString.

(** ** Data model ([store.go]) *)

(** Instants and durations, in nanoseconds. *)
Definition Time := Z.
Definition Duration := Z.

(** [type Message struct]. *)
Record Message : Type := mkMessage {
  Role : string;        (* system, user, assistant *)
  Content : string;
  Timestamp : Time
}.

(** [type AnalysisCache struct] (the store's field has the same name, so the
    type takes a suffix here). *)
Record AnalysisCache_t : Type := mkAnalysisCache {
  FileTree : string;
  ReadmeContent : string;
  PrimaryConfigs : list string
}.

(** [type Metadata struct]. *)
Record Metadata_t : Type := mkMetadata {
  TotalMessages : Z;
  TotalTokensEstimate : Z;
  PruneCount : Z
}.

(** [type Store struct].  The two pointer fields are options: [None] is
    [nil]. *)
Record Store : Type := mkStore {
  Version : string;
  Directory : string;
  CreatedAt : Time;
  UpdatedAt : Time;
  LastAnalysisAt : option Time;
  AnalysisCache : option AnalysisCache_t;
  Messages : list Message;
  Metadata : Metadata_t
}.

(** Field assignments. *)
Definition set_Messages (ms : list Message) (s : Store) : Store :=
  mkStore (Version s) (Directory s) (CreatedAt s) (UpdatedAt s)
          (LastAnalysisAt s) (AnalysisCache s) ms (Metadata s).

Definition set_Metadata (md : Metadata_t) (s : Store) : Store :=
  mkStore (Version s) (Directory s) (CreatedAt s) (UpdatedAt s)
          (LastAnalysisAt s) (AnalysisCache s) (Messages s) md.

Definition set_AnalysisCache (c : option AnalysisCache_t) (s : Store) : Store :=
  mkStore (Version s) (Directory s) (CreatedAt s) (UpdatedAt s)
          (LastAnalysisAt s) c (Messages s) (Metadata s).

Definition set_LastAnalysisAt (t : option Time) (s : Store) : Store :=
  mkStore (Version s) (Directory s) (CreatedAt s) (UpdatedAt s)
          t (AnalysisCache s) (Messages s) (Metadata s).

Definition set_UpdatedAt (t : Time) (s : Store) : Store :=
  mkStore (Version s) (Directory s) (CreatedAt s) t
          (LastAnalysisAt s) (AnalysisCache s) (Messages s) (Metadata s).

Definition set_TotalMessages (n : Z) (s : Store) : Store :=
  set_Metadata (mkMetadata n (TotalTokensEstimate (Metadata s)) (PruneCount (Metadata s))) s.

Definition set_TotalTokensEstimate (n : Z) (s : Store) : Store :=
  set_Metadata (mkMetadata (TotalMessages (Metadata s)) n (PruneCount (Metadata s))) s.

Definition set_PruneCount (n : Z) (s : Store) : Store :=
  set_Metadata (mkMetadata (TotalMessages (Metadata s)) (TotalTokensEstimate (Metadata s)) n) s.

(** [NewStore]. *)
Definition NewStore (directory : string) (now : Time) : Store :=
  {| Version := "1";
     Directory := directory;
     CreatedAt := now;
     UpdatedAt := now;
     LastAnalysisAt := None;
     AnalysisCache := None;
     Messages := [];
     Metadata := {| TotalMessages := 0; TotalTokensEstimate := 0; PruneCount := 0 |} |}.

(** The loop of [EstimateTokens] over a message slice:
    [total += len(msg.Content) / 4], starting from [total]. *)
Definition estimate_loop (total : Z) (ms : list Message) : Z :=
  fold_left (fun total msg => int_add total (strlen (Content msg) ÷ 4)) ms total.

(** [Store.EstimateTokens]: a rough estimate, 4 bytes per token, over the
    messages. *)
Definition EstimateTokens (s : Store) : Z := estimate_loop 0 (Messages s).

(** [Store.AddMessage]. *)
Definition AddMessage (role content : string) (now : Time) (s : Store) : Store :=
  let msg := {| Role := role; Content := content; Timestamp := now |} in
  let s := set_Messages (Messages s ++ [msg]) s in
  let s := set_TotalMessages (len (Messages s)) s in
  set_TotalTokensEstimate (EstimateTokens s) s.

(** [Store.Reset]: clears messages and analysis, keeps the prune count. *)
Definition Reset (s : Store) : Store :=
  let s := set_Messages [] s in
  let s := set_AnalysisCache None s in
  let s := set_LastAnalysisAt None s in
  set_Metadata {| TotalMessages := 0;
                  TotalTokensEstimate := 0;
                  PruneCount := PruneCount (Metadata s) |} s.

(** ** Errors, panics and the store monad *)

(** A Go [error] value: [None] is [nil], [Some msg] carries the message. *)
Definition error := option string.

(** The result of running a method on the store: it returns with a value and
    the store as the method left it, or the Go runtime panics. *)
Inductive run (A : Type) : Type :=
| Done (a : A) (s : Store)
| Panic (why : string).
Arguments Done {A} a s.
Arguments Panic {A} why.

Definition M (A : Type) : Type := Store -> run A.

Definition ret {A : Type} (a : A) : M A := fun s => Done a s.

Definition bind {A B : Type} (m : M A) (k : A -> M B) : M B :=
  fun s => match m s with
           | Done a s' => k a s'
           | Panic why => Panic why
           end.

(** Reads a value off the store. *)
Definition gets {A : Type} (f : Store -> A) : M A := fun s => Done (f s) s.

(** Assigns to the store. *)
Definition modify (f : Store -> Store) : M unit := fun s => Done tt (f s).

Definition panic {A : Type} (why : string) : M A := fun _ => Panic why.

#[export] Instance M_ret : MRet M := @ret.
#[export] Instance M_bind : MBind M := fun A B k m => bind m k.

(** ** Pruning limits and the pruner ([pruner.go]) *)

(** [type PruningLimits struct]. *)
Record PruningLimits : Type := mkPruningLimits {
  MaxMessages : Z;
  MaxTokens : Z;
  MaxAgeDays : Z;
  SoftMaxMessages : Z;
  SoftMaxTokens : Z;
  TargetMessages : Z;
  TargetTokens : Z
}.

(** [DefaultPruningLimits]. *)
Definition DefaultPruningLimits : PruningLimits :=
  {| MaxMessages := 100;
     MaxTokens := 25000;
     MaxAgeDays := 30;
     SoftMaxMessages := 40;
     SoftMaxTokens := 15000;
     TargetMessages := 24;
     TargetTokens := 10000 |}.

(** [api.ChatMessage], as far as the pruner fills it. *)
Record ChatMessage : Type := mkChatMessage {
  cm_Role : string;
  cm_Content : string
}.

(** [*api.Client]: the remote generation service.  [ChatCompletion] answers
    with the response text ([inl]) or with an error ([inr]). *)
Record Client : Type := mkClient {
  ChatCompletion : list ChatMessage -> string + string
}.

(** [type Pruner struct].  The [store] field is the state of the monad. *)
Record Pruner : Type := mkPruner {
  client : option Client;
  limits : PruningLimits
}.

(** [NewPruner]. *)
Definition NewPruner (c : option Client) : Pruner :=
  {| client := c; limits := DefaultPruningLimits |}.

(** [time.Hour], in nanoseconds. *)
Definition Hour : Duration := 3600 * 1000000000.

(** [time.Since], with the clock reading [now]: the difference saturates at
    the ends of the [Duration] range. *)
Definition Since (now t : Time) : Duration :=
  Z.max int_min (Z.min int_max (now - t)).

(** [%.0f] of [age.Hours()/24]: the age in days, rounded to the nearest
    integer, ties to even (the code goes through [float64]; the rendering
    only feeds the reason text). *)
Definition fmt_days (age : Duration) : string :=
  let day := 24 * Hour in
  let q := age `div` day in
  let r := age `mod` day in
  itoa (if 2 * r <? day then q
        else if day <? 2 * r then q + 1
        else if Z.even q then q else q + 1).

(** [(p *Pruner) ShouldPrune]. *)
Definition ShouldPrune (p : Pruner) (now : Time) (s : Store) : bool * string :=
  (* Check hard limits first *)
  if MaxMessages (limits p) <=? len (Messages s) then
    (true, "hard limit: messages (" ++ itoa (len (Messages s)) ++ " >= "
             ++ itoa (MaxMessages (limits p)) ++ ")")
  else
  let tokens := EstimateTokens s in
  if MaxTokens (limits p) <=? tokens then
    (true, "hard limit: tokens (" ++ itoa tokens ++ " >= "
             ++ itoa (MaxTokens (limits p)) ++ ")")
  else
  (* Check age of oldest message *)
  let too_old :=
    match Messages s with
    | oldest :: _ =>
        let age := Since now (Timestamp oldest) in
        if wrap (wrap (MaxAgeDays (limits p) * 24) * Hour) <? age
        then Some age else None
    | [] => None
    end in
  match too_old with
  | Some age =>
      (true, "hard limit: age (" ++ fmt_days age ++ " days >= "
               ++ itoa (MaxAgeDays (limits p)) ++ " days)")
  | None =>
  (* Check soft limits *)
  if SoftMaxMessages (limits p) <=? len (Messages s) then
    (true, "soft limit: messages (" ++ itoa (len (Messages s)) ++ " >= "
             ++ itoa (SoftMaxMessages (limits p)) ++ ")")
  else
  if SoftMaxTokens (limits p) <=? tokens then
    (true, "soft limit: tokens (" ++ itoa tokens ++ " >= "
             ++ itoa (SoftMaxTokens (limits p)) ++ ")")
  else (false, "")
  end.

(** [(p *Pruner) canUseAIPruning]. *)
Definition canUseAIPruning (p : Pruner) (s : Store) : bool :=
  if len (Messages s) <? 10 then false
  else if MaxMessages (limits p) <=? len (Messages s) then false
  else if MaxTokens (limits p) <=? EstimateTokens s then false
  else true.

(** The loop [for startIdx < len(msgs) && msgs[startIdx].Role == "system"]:
    the number of leading system messages. *)
Fixpoint leading_system (ms : list Message) : nat :=
  match ms with
  | m :: rest => if String.eqb (Role m) "system" then S (leading_system rest) else O
  | [] => O
  end.

(** The slice expression [msgs[low:]]: it panics unless
    [0 <= low <= len(msgs)]. *)
Definition slice_from {A : Type} (msgs : list A) (low : Z) : option (list A) :=
  if (0 <=? low) && (low <=? len msgs) then Some (drop (Z.to_nat low) msgs) else None.

(** The metadata update that ends both pruning strategies:
    [PruneCount++], then message count and size estimate recomputed. *)
Definition record_prune (s : Store) : Store :=
  let s := set_PruneCount (int_add (PruneCount (Metadata s)) 1) s in
  let s := set_TotalMessages (len (Messages s)) s in
  set_TotalTokensEstimate (EstimateTokens s) s.

(** [(p *Pruner) pruneHard]: removes the oldest messages. *)
Definition pruneHard (p : Pruner) : M error :=
  msgs ← gets Messages;
  if len msgs <=? TargetMessages (limits p) then ret None (* already below target *)
  else
    (* how many to remove *)
    let toRemove := len msgs - TargetMessages (limits p) in
    (* keep last 4 messages minimum *)
    let toRemove := if len msgs - 4 <=? toRemove then len msgs - 4 else toRemove in
    if toRemove <=? 0 then ret None
    else if TargetMessages (limits p) <? 0 then panic "makeslice: cap out of range"
    else
      (* skip old system messages *)
      let startIdx := Z.of_nat (leading_system msgs) in
      (* keep messages after removing [toRemove] count *)
      match slice_from msgs (startIdx + toRemove) with
      | None => panic "slice bounds out of range"
      | Some preserved =>
          modify (set_Messages preserved);;
          modify record_prune;;
          ret None
      end.

(** The map [toRemove] of [removeMessagesByIndices]: every listed index is
    set to [true]. *)
Definition removal_set (indices : list Z) : gmap Z bool :=
  foldl (fun toRemove idx => <[idx := true]> toRemove) ∅ indices.

(** The loop [for i, msg := range msgs] that appends [msg] to the new slice
    unless [toRemove[i]]; [i] is the index of the head of [msgs].  A missing
    key reads as [false]. *)
Fixpoint keep_unlisted (toRemove : gmap Z bool) (i : Z) (msgs : list Message)
  : list Message :=
  match msgs with
  | [] => []
  | msg :: rest =>
      if negb (default false (toRemove !! i))
      then msg :: keep_unlisted toRemove (i + 1) rest
      else keep_unlisted toRemove (i + 1) rest
  end.

(** [(p *Pruner) removeMessagesByIndices].  The new slice is made with
    capacity [len(messages) - len(indices)]; [make] panics on a negative
    capacity. *)
Definition removeMessagesByIndices (indices : list Z) : M unit :=
  let toRemove := removal_set indices in
  msgs ← gets Messages;
  if len msgs - len indices <? 0 then panic "makeslice: cap out of range"
  else modify (set_Messages (keep_unlisted toRemove 0 msgs)).

(** The loop of [buildPruningPrompt] that lists the messages: system messages
    are skipped, long contents are cut at 200 bytes. *)
Fixpoint summary_lines (i : Z) (msgs : list Message) : string :=
  match msgs with
  | [] => ""
  | msg :: rest =>
      if String.eqb (Role msg) "system" then summary_lines (i + 1) rest
      else
        let content := Content msg in
        let content :=
          if 200 <? strlen content then str_take 200 content ++ "..." else content in
        ("[" ++ itoa i ++ "] " ++ Role msg ++ ": " ++ content ++ nl ++ nl)
          ++ summary_lines (i + 1) rest
  end.

(** [(p *Pruner) buildPruningPrompt]. *)
Definition buildPruningPrompt (p : Pruner) (reason : string) (s : Store) : string :=
  let tokens := EstimateTokens s in
  let summary := "CONVERSATION MESSAGES:" ++ nl ++ nl ++ summary_lines 0 (Messages s) in
  "You are helping manage a conversation context that has grown too large.

CONTEXT PRUNING REQUIRED:
Reason: " ++ reason ++ "

Current state:
- Total messages: " ++ itoa (len (Messages s)) ++ "
- Estimated tokens: " ++ itoa tokens ++ "
- Target: Reduce to ~" ++ itoa (TargetTokens (limits p)) ++ " tokens ("
    ++ itoa (TargetMessages (limits p)) ++ " messages)

" ++ summary ++ "

Your task: Analyze the conversation and identify exchanges (user question + assistant response pairs) that are:
1. Least relevant to ongoing work
2. One-off questions that were fully resolved
3. Outdated information that's been superseded
4. Redundant or repetitive

IMPORTANT RULES:
- Always preserve the last 4 messages (most recent 2 exchanges)
- Preserve messages containing code examples (with triple backticks)
- Preserve messages that reference project structure or analysis results
- Return ONLY a JSON array of message indices to remove

Example response format:
[0, 1, 4, 5, 8, 9]

Respond with ONLY the JSON array, no other text.".

(** [(p *Pruner) ShouldPreserve]: the advisory preservation predicate, for
    the pruner's store [s]. *)
Definition ShouldPreserve (s : Store) (msg : Message) (index : Z) : bool :=
  (* recent messages (last 4) *)
  if len (Messages s) - 4 <=? index then true
  (* messages with code blocks *)
  else if strings.Contains (Content msg) "```" then true
  else
    (* messages that mention analysis or project structure *)
    let keywords := ["analysis"; "file tree"; "README"; "structure"; "architecture"] in
    let content := strings.ToLower (Content msg) in
    existsb (fun keyword => strings.Contains content keyword) keywords.

Section Pruning.

(** Two functions of the Go standard library whose results the pruner
    consumes: [strings.TrimSpace], and [json.Unmarshal] into a [[]int],
    which answers with the decoded indices ([inl]) or with an error
    ([inr]). *)
Variable TrimSpace : string -> string.
Variable Unmarshal : string -> list Z + string.

(** [(p *Pruner) parsePruningResponse]. *)
Definition parsePruningResponse (response : string) : list Z + string :=
  let response := TrimSpace response in
  let response := strings.TrimPrefix response "```json" in
  let response := strings.TrimPrefix response "```" in
  let response := strings.TrimSuffix response "```" in
  let response := TrimSpace response in
  match Unmarshal response with
  | inr err => inr ("failed to parse JSON array: " ++ err)
  | inl indices => inl indices
  end.

(** [(p *Pruner) pruneWithAI]: asks the service which messages to
    remove. *)
Definition pruneWithAI (p : Pruner) (reason : string) : M error :=
  prompt ← gets (buildPruningPrompt p reason);
  let messages := [ {| cm_Role := "system"; cm_Content := prompt |} ] in
  match client p with
  | None => panic "nil pointer dereference"
  | Some c =>
      match ChatCompletion c messages with
      | inr err => ret (Some ("AI pruning request failed: " ++ err))
      | inl response =>
          match parsePruningResponse response with
          | inr err => ret (Some ("failed to parse pruning response: " ++ err))
          | inl indices =>
              if 0 <? len indices then
                removeMessagesByIndices indices;;
                modify record_prune;;
                ret None
              else ret None
          end
      end
  end.

(** [(p *Pruner) Prune]: adaptive selection when possible, the hard rule
    otherwise. *)
Definition Prune (p : Pruner) (now : Time) : M error :=
  '(shouldPrune, reason) ← gets (ShouldPrune p now);
  if negb shouldPrune then ret None (* no pruning needed *)
  else
    canUseAI ← gets (canUseAIPruning p);
    if bool_decide (is_Some (client p)) && canUseAI then
      err ← pruneWithAI p reason;
      match err with
      | Some _ => pruneHard p (* fall back to hard pruning *)
      | None => ret None
      end
    else pruneHard p.

End Pruning.

(** ** Outbound request assembly ([prompt] package) *)

Module prompt.

(** [prompt.AnalysisSystemPrompt]. *)
Definition AnalysisSystemPrompt (fileTree readme : string) (configs : list string)
  : string :=
  let prompt := nl ++ nl ++ "PROJECT ANALYSIS:" ++ nl
      ++ "The following information has been gathered about this project:" ++ nl ++ nl in
  let prompt :=
    if String.eqb fileTree "" then prompt
    else prompt ++ "FILE TREE:" ++ nl ++ fileTree ++ nl ++ nl in
  let prompt :=
    if String.eqb readme "" then prompt
    else prompt ++ "README:" ++ nl ++ readme ++ nl ++ nl in
  let prompt :=
    if 0 <? len configs then
      (prompt ++ "PRIMARY CONFIGURATION FILES:" ++ nl)
        ++ fold_right (fun cfg rest => "- " ++ cfg ++ nl ++ rest) "" configs ++ nl
    else prompt in
  prompt ++ "Use this information to provide more accurate and project-specific responses.".

Section BuildMessages.

(** [prompt.BaseSystemPrompt osType directory]: the static instruction
    preamble, a text template. *)
Variable BaseSystemPrompt : string -> string -> string.

(** [prompt.BuildMessages]: a fresh system message, then the history
    without its system messages. *)
Definition BuildMessages (directory osType : string) (messages : list ChatMessage)
           (analysis : option AnalysisCache_t) : list ChatMessage :=
  let systemPrompt := BaseSystemPrompt osType directory in
  let systemPrompt :=
    match analysis with
    | Some a =>
        systemPrompt
          ++ AnalysisSystemPrompt (FileTree a) (ReadmeContent a) (PrimaryConfigs a)
    | None => systemPrompt
    end in
  {| cm_Role := "system"; cm_Content := systemPrompt |}
    :: filter (fun msg => cm_Role msg ≠ "system") messages.

End BuildMessages.

End prompt.

(** ** The manager: emergency guard and query cycle ([manager.go]) *)

(** [config.Config], as far as the manager reads it. *)
Record Config : Type := mkConfig {
  APIKey : string;
  Model : string;
  OS : string;
  APIURL : string
}.

(** [type Manager struct].  The [store] field is the state of the monad. *)
Record Manager : Type := mkManager {
  config : Config;
  m_client : option Client
}.

(** [int(float64(n) / 3.5)] for a length [n]: the quotient [2n/7] rounded
    down (the [float64] quotient rounds to the same integer for every length
    below [2^50]). *)
Definition div_3_5 (n : Z) : Z := (2 * n) ÷ 7.

(** [(m *Manager) estimateAnalysisCacheTokens]. *)
Definition estimateAnalysisCacheTokens (s : Store) : Z :=
  match AnalysisCache s with
  | None => 0
  | Some cache =>
      let tokens := 0 in
      (* file tree tokens *)
      let tokens := int_add tokens (div_3_5 (strlen (FileTree cache))) in
      (* README tokens *)
      let tokens := int_add tokens (div_3_5 (strlen (ReadmeContent cache))) in
      (* config list overhead *)
      int_add tokens (wrap (len (PrimaryConfigs cache) * 2))
  end.

(** Emergency thresholds (150% of the hard limits). *)
Definition emergencyTokens : Z := 37500.
Definition emergencyMessages : Z := 150.

(** The trigger of the emergency guard:
    [tokens > emergencyTokens || messages > emergencyMessages]. *)
Definition over_emergency (tokens messages : Z) : bool :=
  (emergencyTokens <? tokens) || (emergencyMessages <? messages).

(** [(m *Manager) checkEmergencyPrune]. *)
Definition checkEmergencyPrune (m : Manager) : M error :=
  tokens ← gets EstimateTokens;
  messages ← gets (fun s => len (Messages s));
  if over_emergency tokens messages then
    (* is the problem the analysis cache? *)
    cache ← gets AnalysisCache;
    tokens ←
      (if bool_decide (is_Some cache) then
         analysisTokens ← gets estimateAnalysisCacheTokens;
         (* more than 50% of the tokens: clear the cache entirely *)
         if tokens ÷ 2 <? analysisTokens then
           modify (set_AnalysisCache None);;
           modify (set_LastAnalysisAt None);;
           (* re-check tokens after clearing analysis *)
           gets EstimateTokens
         else ret tokens
       else ret tokens);
    (* if still over limits, prune messages *)
    if over_emergency tokens messages then
      err ← pruneHard (NewPruner (m_client m));
      match err with
      | Some e => ret (Some e)
      | None => ret None
      end
    else ret None
  else ret None.

Section Manager.

Variable TrimSpace : string -> string.
Variable Unmarshal : string -> list Z + string.
Variable BaseSystemPrompt : string -> string -> string.

(** The outcome of writing the context file of a store ([os.MkdirAll],
    [json.MarshalIndent], [os.WriteFile]). *)
Variable write_context : Store -> error.

(** The directory analyzer ([Analyzer.Analyze]) run on a root directory. *)
Variable scan_directory : string -> AnalysisCache_t + string.

(** [(s *Store) Save]. *)
Definition Save (now : Time) : M error :=
  modify (set_UpdatedAt now);;
  gets write_context.

(** [(m *Manager) checkAndPrune]. *)
Definition checkAndPrune (m : Manager) (now : Time) : M error :=
  let pruner := NewPruner (m_client m) in
  '(shouldPrune, reason) ← gets (ShouldPrune pruner now);
  if negb shouldPrune then ret None
  else
    err ← Prune TrimSpace Unmarshal pruner now;
    match err with
    | Some e => ret (Some ("pruning failed: " ++ e))
    | None => ret None
    end.

(** [(m *Manager) Query]: one query cycle.  It returns the response and an
    error; failures of the guard and of pruning are only logged. *)
Definition Query (m : Manager) (userQuery : string) (now : Time) : M (string * error) :=
  checkEmergencyPrune m;;
  modify (AddMessage "user" userQuery now);;
  s ← gets id;
  let promptMessages :=
    map (fun msg => {| cm_Role := Role msg; cm_Content := Content msg |}) (Messages s) in
  let messages :=
    prompt.BuildMessages BaseSystemPrompt (Directory s) (OS (config m))
                         promptMessages (AnalysisCache s) in
  match m_client m with
  | None => panic "nil pointer dereference"
  | Some c =>
      match ChatCompletion c messages with
      | inr err => ret ("", Some ("API request failed: " ++ err))
      | inl response =>
          modify (AddMessage "assistant" response now);;
          checkEmergencyPrune m;;
          checkAndPrune m now;;
          err ← Save now;
          match err with
          | Some e => ret ("", Some ("failed to save context: " ++ e))
          | None => ret (response, None)
          end
      end
  end.

(** [(m *Manager) Reset]. *)
Definition Manager_Reset (m : Manager) (now : Time) : M error :=
  modify Reset;;
  err ← Save now;
  match err with
  | Some e => ret (Some ("failed to save reset context: " ++ e))
  | None => ret None
  end.

(** [AnalyzeDirectory]: runs the analyzer and caches its result. *)
Definition AnalyzeDirectory (now : Time) : M error :=
  directory ← gets Directory;
  match scan_directory directory with
  | inr err => ret (Some err)
  | inl cache =>
      modify (set_AnalysisCache (Some cache));;
      modify (set_LastAnalysisAt (Some now));;
      ret None
  end.

(** [(m *Manager) Analyze]. *)
Definition Analyze (m : Manager) (now : Time) : M error :=
  err ← AnalyzeDirectory now;
  match err with
  | Some e => ret (Some ("analysis failed: " ++ e))
  | None =>
      err ← Save now;
      match err with
      | Some e => ret (Some ("failed to save analysis: " ++ e))
      | None => ret None
      end
  end.

End Manager.

(** ** Configuration ([config] package) *)

Module configuration.

(** The constants of the package. *)
Definition DefaultModel : string := "gpt-4o".
Definition DefaultOS : string := "macOS".
Definition DefaultAPIURL : string := "https://api.openai.com/v1/chat/completions".
Definition ContextDir : string := ".config/ask/contexts".
Definition GlobalConfigDir : string := ".config/ask".
Definition GlobalEnvFile : string := ".env".
Definition LocalEnvFile : string := ".env".

(** [strings.SplitN(s, "=", 2)]: [Some (before, after)] around the first
    [=] when there is one (two parts), [None] otherwise (one part). *)
Fixpoint SplitN_equals (s : string) : option (string * string) :=
  match s with
  | EmptyString => None
  | String c rest =>
      if Ascii.eqb c "=" then Some (EmptyString, rest)
      else match SplitN_equals rest with
           | Some (before, after) => Some (String c before, after)
           | None => None
           end
  end.

Section Load.

(** [strings.TrimSpace]. *)
Variable TrimSpace : string -> string.

(** Reading a file line by line: [os.Open] fails ([inr]), or the scanner
    delivers lines and ends with its error, if any. *)
Variable read_lines : string -> (list string * error) + string.

(** [os.UserHomeDir], [filepath.Join] and [os.Getenv] (an unset variable
    reads as the empty string). *)
Variable UserHomeDir : string + string.
Variable Join : list string -> string.
Variable Getenv : string -> string.

(** The body of the scanner loop of [loadEnvFile] for one line. *)
Definition apply_line (text : string) (cfg : Config) : Config :=
  let line := TrimSpace text in
  (* skip empty lines and comments *)
  if String.eqb line "" || strings.HasPrefix line "#" then cfg
  else
    (* parse KEY=VALUE *)
    match SplitN_equals line with
    | None => cfg
    | Some (part0, part1) =>
        let key := TrimSpace part0 in
        let value := TrimSpace part1 in
        (* only set if not already set *)
        if String.eqb key "ASK_API_KEY" then
          if String.eqb (APIKey cfg) "" then mkConfig value (Model cfg) (OS cfg) (APIURL cfg)
          else cfg
        else if String.eqb key "ASK_MODEL" then
          if String.eqb (Model cfg) DefaultModel
          then mkConfig (APIKey cfg) value (OS cfg) (APIURL cfg)
          else cfg
        else if String.eqb key "ASK_OS" then
          if String.eqb (OS cfg) DefaultOS
          then mkConfig (APIKey cfg) (Model cfg) value (APIURL cfg)
          else cfg
        else if String.eqb key "ASK_API_URL" then
          if String.eqb (APIURL cfg) DefaultAPIURL
          then mkConfig (APIKey cfg) (Model cfg) (OS cfg) value
          else cfg
        else cfg
    end.

(** [loadEnvFile]: the configuration after the file, and the error. *)
Definition loadEnvFile (path : string) (cfg : Config) : Config * error :=
  match read_lines path with
  | inr err => (cfg, Some err)
  | inl (lines, scan_err) => (fold_left (fun cfg text => apply_line text cfg) lines cfg, scan_err)
  end.

(** [config.Load]: defaults, then the global file, then the local file, then
    the environment. *)
Definition Load : Config + string :=
  let cfg := {| APIKey := ""; Model := DefaultModel; OS := DefaultOS; APIURL := DefaultAPIURL |} in
  match UserHomeDir with
  | inr err => inr ("failed to get home directory: " ++ err)
  | inl homeDir =>
      let globalEnvPath := Join [homeDir; GlobalConfigDir; GlobalEnvFile] in
      (* the files are optional: their errors are dropped *)
      let cfg := fst (loadEnvFile globalEnvPath cfg) in
      let cfg := fst (loadEnvFile LocalEnvFile cfg) in
      (* environment variables override everything *)
      let cfg := let v := Getenv "ASK_API_KEY" in
                 if negb (String.eqb v "") then mkConfig v (Model cfg) (OS cfg) (APIURL cfg)
                 else cfg in
      let cfg := let v := Getenv "ASK_MODEL" in
                 if negb (String.eqb v "") then mkConfig (APIKey cfg) v (OS cfg) (APIURL cfg)
                 else cfg in
      let cfg := let v := Getenv "ASK_OS" in
                 if negb (String.eqb v "") then mkConfig (APIKey cfg) (Model cfg) v (APIURL cfg)
                 else cfg in
      let cfg := let v := Getenv "ASK_API_URL" in
                 if negb (String.eqb v "") then mkConfig (APIKey cfg) (Model cfg) (OS cfg) v
                 else cfg in
      inl cfg
  end.

End Load.

(** [(c *Config) Validate]. *)
Definition Validate (c : Config) : error :=
  if String.eqb (APIKey c) "" && String.eqb (APIURL c) DefaultAPIURL
  then Some "ASK_API_KEY is required for OpenAI API"
  else None.

End configuration.

(** ** The service client ([api] package) *)

Module api.

(** [time.Second], in nanoseconds. *)
Definition Second : Duration := 1000000000.

Section ChatCompletion.

(** [json.Marshal] of the request for a model and messages: the body, or an
    error. *)
Variable Marshal : string -> list ChatMessage -> string + string.

(** [makeRequest] for a body, as the network answers the attempt with the
    given number: the content of the first choice, or an error. *)
Variable makeRequest : nat -> string -> string + string.

(** The retry loop of [ChatCompletion] from attempt number [attempt] on,
    with [remaining] attempts left; [lastErr] is the error of the previous
    attempt and [slept] the time spent in [time.Sleep] so far. *)
Fixpoint attempts (body : string) (attempt remaining : nat) (lastErr : string)
         (slept : Duration) : (string + string) * Duration :=
  match remaining with
  | O => (inr ("failed after 3 attempts: " ++ lastErr), slept)
  | S remaining =>
      let slept :=
        if (0 <? attempt)%nat
        then slept + wrap (Z.of_nat (attempt * attempt) * Second)
        else slept in
      match makeRequest attempt body with
      | inl response => (inl response, slept)
      | inr err => attempts body (S attempt) remaining err slept
      end
  end.

(** [(c *Client) ChatCompletion] for a client configured with [model]: the
    outcome, and the time slept between attempts. *)
Definition ChatCompletion (model : string) (messages : list ChatMessage)
  : (string + string) * Duration :=
  match Marshal model messages with
  | inr err => (inr ("failed to marshal request: " ++ err), 0)
  | inl body => attempts body 0 3 "" 0
  end.

End ChatCompletion.

End api.

(** ** The directory analyzer ([analyzer.go]) *)

Module analyzer.

(** [ConfigFiles]: the configuration files to detect. *)
Definition ConfigFiles : list string :=
  ["go.mod"; "package.json"; "Cargo.toml"; "pyproject.toml"; "requirements.txt";
   "pom.xml"; "build.gradle"; "Makefile"; "docker-compose.yml"; "Dockerfile"].

(** [ReadmeFiles]: the README names, in the order they are tried. *)
Definition ReadmeFiles : list string :=
  ["README.md"; "README.txt"; "README"; "readme.md"; "Readme.md"].

(** [strings.TrimLeft(s, "/")]. *)
Fixpoint TrimLeft_slash (s : string) : string :=
  match s with
  | String c rest => if Ascii.eqb c "/" then TrimLeft_slash rest else s
  | EmptyString => EmptyString
  end.

(** [strings.TrimRight(s, "/")]. *)
Fixpoint TrimRight_slash (s : string) : string :=
  match s with
  | EmptyString => EmptyString
  | String c rest =>
      let rest := TrimRight_slash rest in
      if Ascii.eqb c "/" && String.eqb rest "" then EmptyString else String c rest
  end.

(** [strings.Trim(s, "/")]: leading and trailing slashes removed. *)
Definition Trim_slash (s : string) : string := TrimRight_slash (TrimLeft_slash s).

(** [matchPattern]: basic glob matching of a path against a pattern. *)
Definition matchPattern (path pattern : string) : bool :=
  (* remove leading/trailing slashes *)
  let pattern := Trim_slash pattern in
  let path := Trim_slash path in
  (* directory patterns (ending with /) *)
  if strings.HasSuffix pattern "/" then
    let pattern := strings.TrimSuffix pattern "/" in
    strings.HasPrefix path (pattern ++ "/") || String.eqb path pattern
  else
    let wildcard :=
      if strings.Contains pattern "*" then
        if String.eqb pattern "*" then Some true
        else if strings.HasPrefix pattern "*." then
          let ext := strings.TrimPrefix pattern "*" in
          Some (strings.HasSuffix path ext)
        else None
      else None in
    match wildcard with
    | Some answer => answer
    | None =>
        (* exact match or contains *)
        String.eqb path pattern
        || strings.Contains path ("/" ++ pattern)
        || strings.HasPrefix path (pattern ++ "/")
    end.

(** [type GitignoreParser struct]. *)
Record GitignoreParser : Type := mkGitignoreParser {
  g_rootDir : string;
  patterns : list string
}.

(** [NewGitignoreParser]. *)
Definition NewGitignoreParser (rootDir : string) : GitignoreParser :=
  {| g_rootDir := rootDir; patterns := [] |}.

(** The names that are always ignored. *)
Definition commonIgnores : list string :=
  ["node_modules"; ".git"; "vendor"; "target"; "dist"; "build";
   "__pycache__"; ".pytest_cache"; ".mypy_cache"].

(** [(g *GitignoreParser) IsIgnored]. *)
Definition IsIgnored (g : GitignoreParser) (path : string) : bool :=
  if existsb (fun pattern => strings.Contains path pattern) commonIgnores then true
  else existsb (fun pattern => matchPattern path pattern) (patterns g).

(** [filepath.Join] of two elements that are clean paths or empty: empty
    elements are dropped. *)
Definition Join (a b : string) : string :=
  if String.eqb a "" then b
  else if String.eqb b "" then a
  else a ++ "/" ++ b.

(** What [os.ReadDir] tells about an entry: its name, whether it is a
    directory, and its size as [entry.Info] reports it ([None]: [Info]
    fails). *)
Record DirEntry : Type := mkDirEntry {
  Name : string;
  IsDir : bool;
  Size : option Z
}.

(** [type Analyzer struct]. *)
Record Analyzer : Type := mkAnalyzer {
  rootDir : string;
  gitignore : GitignoreParser;
  maxDepth : Z;
  maxFileSize : Z;
  maxReadmeLen : Z
}.

(** [NewAnalyzer].  The [gitignore] field is filled by [Analyze]. *)
Definition NewAnalyzer (rootDir : string) : Analyzer :=
  {| rootDir := rootDir;
     gitignore := NewGitignoreParser rootDir;
     maxDepth := 2;
     maxFileSize := 1024 * 50;
     maxReadmeLen := 5000 |}.

(** The cap of the file tree and the notice appended to a cut tree. *)
Definition maxTreeSize : Z := 10000.

Definition tree_notice : string :=
  nl ++ nl ++ "[File tree truncated - project too large]" ++ nl
     ++ "[Tip: Use 'ask' without --analyze for less context]".

(** The notice appended to a cut README. *)
Definition readme_notice : string := nl ++ nl ++ "[README truncated - too large]".

Section FileSystem.

(** [strings.TrimSpace] and [filepath.Base]. *)
Variable TrimSpace : string -> string.
Variable Base : string -> string.

(** The file system: [os.ReadDir] of a path ([None]: it fails), reading a
    file line by line ([inr]: [os.Open] fails), [os.ReadFile] ([None]: it
    fails) and [os.Stat] ([true]: no error). *)
Variable ReadDir : string -> option (list DirEntry).
Variable read_lines : string -> (list string * error) + string.
Variable ReadFile : string -> option string.
Variable Stat : string -> bool.

(** [(g *GitignoreParser) Parse]: the parser with the patterns of the
    [.gitignore] file, and the error. *)
Definition Parse (g : GitignoreParser) : GitignoreParser * error :=
  let gitignorePath := Join (g_rootDir g) ".gitignore" in
  match read_lines gitignorePath with
  | inr err => (g, Some err)
  | inl (lines, scan_err) =>
      let add patterns text :=
        let line := TrimSpace text in
        (* skip empty lines and comments *)
        if String.eqb line "" || strings.HasPrefix line "#" then patterns
        else (patterns ++ [line])%list in
      (mkGitignoreParser (g_rootDir g) (fold_left add lines (patterns g)), scan_err)
  end.

(** [(a *Analyzer) walkDirectory]: what the walk writes to the builder for
    the directory [relPath] at [depth].  The recursion of the code ends
    because the depth grows up to [maxDepth]; here [levels] counts the
    levels that are left. *)
Fixpoint walk (a : Analyzer) (levels : nat) (relPath : string) (depth : Z) : string :=
  match levels with
  | O => ""
  | S levels =>
      if maxDepth a <? depth then ""
      else
        let fullPath := Join (rootDir a) relPath in
        match ReadDir fullPath with
        | None => "" (* skip directories we can't read *)
        | Some entries =>
            let visit (entry : DirEntry) : string :=
              let name := Name entry in
              let entryPath := Join relPath name in
              (* skip hidden files and gitignored paths *)
              if strings.HasPrefix name "." && negb (String.eqb name ".env.example") then ""
              else if IsIgnored (gitignore a) entryPath then ""
              else
                let indent := strings.Repeat "  " (depth + 1) in
                if IsDir entry then
                  (indent ++ name ++ "/" ++ nl) ++ walk a levels entryPath (depth + 1)
                else
                  match Size entry with
                  | Some size =>
                      if size <? maxFileSize a then indent ++ name ++ nl else ""
                  | None => ""
                  end in
            fold_right (fun entry rest => visit entry ++ rest) "" entries
        end
  end.

(** [walkDirectory] as [generateFileTree] calls it: the levels that the
    depth cap leaves. *)
Definition walkDirectory (a : Analyzer) (relPath : string) (depth : Z) : string :=
  walk a (Z.to_nat (maxDepth a + 1 - depth)) relPath depth.

(** [(a *Analyzer) generateFileTree]. *)
Definition generateFileTree (a : Analyzer) : string :=
  let tree := (Base (rootDir a) ++ "/" ++ nl) ++ walkDirectory a "" 0 in
  (* max 10KB for the file tree *)
  if maxTreeSize <? strlen tree
  then str_take (Z.to_nat maxTreeSize) tree ++ tree_notice
  else tree.

(** [(a *Analyzer) findReadme]. *)
Definition findReadme (a : Analyzer) : string :=
  let try filename rest :=
    let path := Join (rootDir a) filename in
    match ReadFile path with
    | Some content =>
        (* max 5KB for the README *)
        let maxLen := 5000 in
        if maxLen <? strlen content
        then str_take (Z.to_nat maxLen) content ++ readme_notice
        else content
    | None => rest
    end in
  fold_right try "" ReadmeFiles.

(** [(a *Analyzer) detectConfigFiles]. *)
Definition detectConfigFiles (a : Analyzer) : list string :=
  List.filter (fun filename => Stat (Join (rootDir a) filename)) ConfigFiles.

(** [(a *Analyzer) Analyze].  The walk returns no error, so neither does
    the analysis. *)
Definition Analyze (a : Analyzer) : AnalysisCache_t :=
  (* .gitignore is optional *)
  let a := mkAnalyzer (rootDir a) (fst (Parse (NewGitignoreParser (rootDir a))))
                      (maxDepth a) (maxFileSize a) (maxReadmeLen a) in
  {| FileTree := generateFileTree a;
     ReadmeContent := findReadme a;
     PrimaryConfigs := detectConfigFiles a |}.

(** The analyzer as [AnalyzeDirectory] uses it: [NewAnalyzer] on the
    directory of the store, then [Analyze]. *)
Definition scan (directory : string) : AnalysisCache_t + string :=
  inl (Analyze (NewAnalyzer directory)).

End FileSystem.

End analyzer.

(** ** Loading and saving the context file ([store.go]) *)

Module persistence.

Section Disk.

(** The surroundings: [os.UserHomeDir], [hash.DirectoryPath] (the first 8
    hexadecimal digits of a SHA-256 digest), [filepath.Join],
    [os.MkdirAll], [json.MarshalIndent] and [json.Unmarshal] of a store, and
    the failures of reading and writing a file. *)
Variable UserHomeDir : string + string.
Variable DirectoryPath : string -> string.
Variable Join : list string -> string.
Variable MkdirAll : string -> error.
Variable MarshalIndent : Store -> string + string.
Variable Unmarshal : string -> Store + string.
Variable read_failure : string -> option string.
Variable write_failure : string -> option string.

(** The files on disk: path to content. *)
Definition Files : Type := gmap string string.

(** [getContextFilePath].  The error of [os.UserHomeDir] is dropped; the
    home directory is then empty. *)
Definition getContextFilePath (directory : string) : string :=
  let homeDir := match UserHomeDir with inl dir => dir | inr _ => "" end in
  let dirHash := DirectoryPath directory in
  Join [homeDir; configuration.ContextDir; dirHash ++ ".json"].

(** [Load]: reads the context store of a directory from disk. *)
Definition Load (directory : string) (now : Time) (files : Files) : Store + string :=
  let path := getContextFilePath directory in
  match files !! path with
  | None => inl (NewStore directory now) (* the file does not exist *)
  | Some data =>
      match read_failure path with
      | Some err => inr ("failed to read context file: " ++ err)
      | None =>
          match Unmarshal data with
          | inr err => inr ("failed to parse context file: " ++ err)
          | inl store =>
              (* verify directory matches *)
              if negb (String.eqb (Directory store) directory) then
                inr ("context file directory mismatch: expected " ++ directory
                       ++ ", got " ++ Directory store)
              else inl store
          end
      end
  end.

(** [(s *Store) Save] on the disk: the error, the store and the files as
    the call leaves them. *)
Definition Save (now : Time) (s : Store) (files : Files) : error * Store * Files :=
  let s := set_UpdatedAt now s in
  match UserHomeDir with
  | inr err => (Some ("failed to get home directory: " ++ err), s, files)
  | inl homeDir =>
      let contextDir := Join [homeDir; configuration.ContextDir] in
      match MkdirAll contextDir with
      | Some err => (Some ("failed to create context directory: " ++ err), s, files)
      | None =>
          let path := getContextFilePath (Directory s) in
          match MarshalIndent s with
          | inr err => (Some ("failed to marshal context: " ++ err), s, files)
          | inl data =>
              match write_failure path with
              | Some err => (Some ("failed to write context file: " ++ err), s, files)
              | None => (None, s, <[path := data]> files)
              end
          end
      end
  end.

End Disk.

End persistence.

(** ** Notions used to state the properties *)


(** The metadata agrees with the content of the store. *)
Definition metadata_consistent (s : Store) : Prop :=
  TotalMessages (Metadata s) = len (Messages s) /\
  TotalTokensEstimate (Metadata s) = EstimateTokens s.

(** Positional removal as the specification words it: the messages whose
    position is not listed, in their original order. *)
Definition unlisted (indices : list Z) (msgs : list Message) : list Message :=
  snd <$> filter (fun im => Z.of_nat (fst im) ∉ indices) (imap pair msgs).

(** An index that denotes a position of a slice of length [n]. *)
Definition in_range (n : Z) (idx : Z) : Prop := 0 <= idx < n.

#[export] Instance in_range_dec (n idx : Z) : Decision (in_range n idx).
Proof. unfold in_range. apply _. Defined.

(** Deterministic pruning as the specification words it: with
    [excess = count - target], capped so that 4 messages remain, the leading
    system run is kept, the next [excess] messages are dropped, and all later
    messages are kept. *)
Definition pruneHard_described (target : Z) (msgs : list Message) : list Message :=
  if len msgs <=? target then msgs
  else
    let excess := Z.min (len msgs - target) (len msgs - 4) in
    if excess <=? 0 then msgs
    else
      let run := leading_system msgs in
      take run msgs ++ drop (run + Z.to_nat excess) msgs.

(** Modelled from the spec: the per-message content cap [MaxMessageLength].
    The tests of the package refer to it, its declaration is not among the
    sources; the README gives its value as 50,000 characters. *)
Definition MaxMessageLength : Z := 50000.

(** Partial correctness of a method: from a store that satisfies [P], a run
    that returns leaves a value and a store that satisfy [Q]. *)
Definition hoare {A : Type} (P : Store -> Prop) (m : M A) (Q : A -> Store -> Prop) : Prop :=
  forall s, P s ->
            match m s with
            | Done a s' => Q a s'
            | Panic _ => True
            end.

(** A method that keeps a property of the store. *)
Definition keeps {A : Type} (I : Store -> Prop) (m : M A) : Prop :=
  hoare I m (fun _ => I).

(** The surroundings of the core: the two library functions of the pruner,
    the text of the instruction preamble, the outcome of writing a context
    file, and the directory analyzer. *)
Record Environment : Type := mkEnvironment {
  env_TrimSpace : string -> string;
  env_Unmarshal : string -> list Z + string;
  env_BaseSystemPrompt : string -> string -> string;
  env_write_context : Store -> error;
  env_scan_directory : string -> AnalysisCache_t + string
}.

(** One mutation of the store by the orchestrator or the pruning
    components. *)
Inductive mutation (E : Environment) : Store -> Store -> Prop :=
| mut_AddMessage role content now s :
    mutation E s (AddMessage role content now s)
| mut_pruneWithAI p reason e s s' :
    pruneWithAI (env_TrimSpace E) (env_Unmarshal E) p reason s = Done e s' ->
    mutation E s s'
| mut_pruneHard p e s s' :
    pruneHard p s = Done e s' ->
    mutation E s s'
| mut_Prune p now e s s' :
    Prune (env_TrimSpace E) (env_Unmarshal E) p now s = Done e s' ->
    mutation E s s'
| mut_checkAndPrune m now e s s' :
    checkAndPrune (env_TrimSpace E) (env_Unmarshal E) m now s = Done e s' ->
    mutation E s s'
| mut_checkEmergencyPrune m e s s' :
    checkEmergencyPrune m s = Done e s' ->
    mutation E s s'
| mut_AnalyzeDirectory now e s s' :
    AnalyzeDirectory (env_scan_directory E) now s = Done e s' ->
    mutation E s s'
| mut_Analyze m now e s s' :
    Analyze (env_write_context E) (env_scan_directory E) m now s = Done e s' ->
    mutation E s s'
| mut_Reset s :
    mutation E s (Reset s)
| mut_Manager_Reset m now e s s' :
    Manager_Reset (env_write_context E) m now s = Done e s' ->
    mutation E s s'
| mut_Save now e s s' :
    Save (env_write_context E) now s = Done e s' ->
    mutation E s s'
| mut_Query m userQuery now r s s' :
    Query (env_TrimSpace E) (env_Unmarshal E) (env_BaseSystemPrompt E)
          (env_write_context E) m userQuery now s = Done r s' ->
    mutation E s s'.

(** The stores the program works on: a new store, changed by any number of
    mutations (a store loaded from its context file is one that was saved
    earlier). *)
Inductive reachable (E : Environment) : Store -> Prop :=
| reach_NewStore directory now :
    reachable E (NewStore directory now)
| reach_step s s' :
    reachable E s -> mutation E s s' -> reachable E s'.


(** ** Example inputs *)

Module examples.

(** An environment without network and disk trouble: nothing to trim, a
    decoder that rejects every response, writes that succeed, and a
    directory scan that finds an empty directory. *)
Definition quiet : Environment :=
  {| env_TrimSpace := fun response => response;
     env_Unmarshal := fun _ => inr "invalid character";
     env_BaseSystemPrompt := fun osType directory => "OS: " ++ osType;
     env_write_context := fun _ => None;
     env_scan_directory := fun _ => inl (mkAnalysisCache "" "" []) |}.

(** A service that cannot be reached. *)
Definition unreachable_service : Client :=
  {| ChatCompletion := fun _ => inr "connection refused" |}.

(** A service that answers every request with the same text. *)
Definition answering (response : string) : Client :=
  {| ChatCompletion := fun _ => inl response |}.

Definition manager (c : option Client) : Manager :=
  {| config := {| APIKey := "test"; Model := "test"; OS := "macOS"; APIURL := "http://test" |};
     m_client := c |}.

(** [n] messages with the given role, numbered from [from] in their
    content, all created at instant [0]. *)
Definition numbered (role : string) (from : nat) (n : nat) : list Message :=
  (fun i => {| Role := role; Content := "message " ++ itoa (Z.of_nat i); Timestamp := 0 |})
    <$> seq from n.

(** A store holding the given messages, with consistent metadata. *)
Definition store_of (msgs : list Message) : Store :=
  let s := set_Messages msgs (NewStore "/test/dir" 0) in
  let s := set_TotalMessages (len msgs) s in
  set_TotalTokensEstimate (EstimateTokens s) s.

(** 22 system messages followed by 3 user messages. *)
Definition mostly_system : Store :=
  store_of (numbered "system" 0 22 ++ numbered "user" 22 3).

(** One system message followed by 24 user messages. *)
Definition system_then_users : Store :=
  store_of (numbered "system" 0 1 ++ numbered "user" 1 24).

(** 45 messages, the first 25 of them system messages. *)
Definition long_system_run : Store :=
  store_of (numbered "system" 0 25 ++ numbered "user" 25 20).

(** 50 alternating user and assistant messages, as in [TestPrunerHardPrune]. *)
Definition fifty : Store :=
  store_of ((fun i => {| Role := if Nat.even i then "user" else "assistant";
                         Content := "Message " ++ itoa (Z.of_nat i);
                         Timestamp := 0 |}) <$> seq 0 50).

(** A single message created at instant [0], as in [TestPrunerAgeLimit]. *)
Definition one_old_message : Store :=
  AddMessage "user" "Old message" 0 (NewStore "/test/dir" 0).

(** 31 days after instant [0]. *)
Definition day31 : Time := 31 * 24 * Hour.




(** A content of 51,000 bytes, above [MaxMessageLength]. *)
Definition oversized_content : string := strings.Repeat "A" 51000.

(** A message that talks about the readme, in lower case. *)
Definition readme_message : Message :=
  {| Role := "user"; Content := "please update the readme"; Timestamp := 0 |}.

End examples.

(** ** Further example inputs *)

Module samples.

(** A decoder that reads the same index list off every response. *)
Definition decoding (indices : list Z) : string -> list Z + string :=
  fun _ => inl indices.

(** Ten numbered user messages. *)
Definition ten : Store := examples.store_of (examples.numbered "user" 0 10).

(** Text without surrounding white space is its own [TrimSpace]. *)
Definition trimmed (s : string) : string := s.

(** [filepath.Join] on clean elements. *)
Definition slash_join (parts : list string) : string := String.concat "/" parts.



(** A network that answers the third attempt. *)
Definition third_time (attempt : nat) (body : string) : string + string :=
  if (attempt <? 2)%nat then inr "timeout" else inl "pong".

(** A request body that is the model name. *)
Definition body_of (model : string) (messages : list ChatMessage) : string + string :=
  inl model.

(** A small project: two files, a directory and a [.git] directory, a
    README and a [go.mod]. *)
Definition project_dirs (path : string) : option (list analyzer.DirEntry) :=
  if String.eqb path "/p"
  then Some [analyzer.mkDirEntry "main.go" false (Some 120);
             analyzer.mkDirEntry "cmd" true None;
             analyzer.mkDirEntry ".git" true None;
             analyzer.mkDirEntry "rebuild.sh" false (Some 40)]
  else if String.eqb path "/p/cmd"
  then Some [analyzer.mkDirEntry "run.go" false (Some 80)]
  else None.

Definition project_base (path : string) : string := "p".

Definition project_lines (path : string) : (list string * error) + string :=
  inr "no such file".

Definition project_file (path : string) : option string :=
  if String.eqb path "/p/README.md" then Some "# p" else None.

Definition project_stat (path : string) : bool := String.eqb path "/p/go.mod".

(** The snapshot that the analyzer takes of the small project. *)
Definition project_snapshot : AnalysisCache_t :=
  analyzer.Analyze trimmed project_base project_dirs project_lines project_file
                   project_stat (analyzer.NewAnalyzer "/p").

(** 160 messages of 220 bytes each, with the snapshot of the project. *)
Definition crowded : Store :=
  set_AnalysisCache (Some project_snapshot)
    (examples.store_of
       ((fun i => {| Role := "user";
                     Content := String.concat "" (repeat "0123456789" 22);
                     Timestamp := 0 |}) <$> seq 0 160)).

(** A disk whose encoder writes a fixed text that the decoder reads back as
    the store saved at time 5. *)
Definition home : string + string := inl "/home/u".

Definition digest (directory : string) : string :=
  if String.eqb directory "/test/dir" then "9f2c11aa" else "00000000".

Definition mkdir_ok (path : string) : error := None.

Definition encode (s : Store) : string + string := inl "{}".

Definition decode (data : string) : Store + string := inl (set_UpdatedAt 5 ten).

Definition no_failure (path : string) : option string := None.

End samples.

(** * Properties *)

(** ** Integers, lengths and the size estimate *)

Lemma wrap_small (z : Z) : int_min <= z <= int_max -> wrap z = z.
Proof.
  unfold wrap, int_min, int_max. intros Hz.
  rewrite Z.mod_small; lia.
Qed.

(** Below the largest [int], [n++] is [n + 1]. *)
Lemma increment_exact (n : Z) : int_min <= n < int_max -> int_add n 1 = n + 1.
Proof. intros Hn. unfold int_add. apply wrap_small. lia. Qed.

Lemma len_nonneg {A : Type} (l : list A) : 0 <= len l.
Proof. unfold len. lia. Qed.

Lemma len_drop {A : Type} (n : nat) (l : list A) :
  len (drop n l) = Z.max 0 (len l - Z.of_nat n).
Proof. unfold len. rewrite length_drop. lia. Qed.






(** ** The metadata update of the pruning strategies *)

Lemma record_prune_Messages (s : Store) : Messages (record_prune s) = Messages s.
Proof. reflexivity. Qed.

Lemma record_prune_consistent (s : Store) : metadata_consistent (record_prune s).
Proof. split; reflexivity. Qed.

(** ** Deterministic pruning with the default limits *)

(** At or below the target nothing happens. *)
Lemma pruneHard_at_target (c : option Client) (s : Store) :
  len (Messages s) <= 24 -> pruneHard (NewPruner c) s = Done None s.
Proof.
  intros Hlen. unfold pruneHard, mbind, M_bind, bind, gets. simpl.
  destruct (Z.leb_spec (len (Messages s)) 24); [reflexivity | lia].
Qed.

(** Above the target the store keeps the messages behind the leading system
    run and the [len - 24] messages that follow it. *)
Lemma pruneHard_above_target (c : option Client) (s : Store) :
  24 < len (Messages s) ->
  (leading_system (Messages s) <= 24)%nat ->
  pruneHard (NewPruner c) s =
  Done None
       (record_prune
          (set_Messages
             (drop (leading_system (Messages s) + Z.to_nat (len (Messages s) - 24))
                   (Messages s)) s)).
Proof.
  intros Hlen Hrun. unfold pruneHard, mbind, M_bind, bind, gets. simpl.
  destruct (Z.leb_spec (len (Messages s)) 24); [lia|].
  destruct (Z.leb_spec (len (Messages s) - 4) (len (Messages s) - 24)); [lia|].
  destruct (Z.leb_spec (len (Messages s) - 24) 0); [lia|].
  unfold slice_from.
  destruct (Z.leb_spec 0 (Z.of_nat (leading_system (Messages s)) + (len (Messages s) - 24)));
    [|lia].
  destruct (Z.leb_spec (Z.of_nat (leading_system (Messages s)) + (len (Messages s) - 24))
                       (len (Messages s))); [|lia].
  simpl. unfold modify, ret. simpl.
  rewrite Z2Nat.inj_add by lia. rewrite Nat2Z.id. reflexivity.
Qed.

(** With more than 24 leading system messages the slice expression is out
    of range. *)
Lemma pruneHard_out_of_range (c : option Client) (s : Store) :
  24 < len (Messages s) ->
  (24 < leading_system (Messages s))%nat ->
  pruneHard (NewPruner c) s = Panic "slice bounds out of range".
Proof.
  intros Hlen Hrun. unfold pruneHard, mbind, M_bind, bind, gets. simpl.
  destruct (Z.leb_spec (len (Messages s)) 24); [lia|].
  destruct (Z.leb_spec (len (Messages s) - 4) (len (Messages s) - 24)); [lia|].
  destruct (Z.leb_spec (len (Messages s) - 24) 0); [lia|].
  unfold slice_from.
  destruct (Z.leb_spec (Z.of_nat (leading_system (Messages s)) + (len (Messages s) - 24))
                       (len (Messages s))); [lia|].
  rewrite andb_false_r. reflexivity.
Qed.

(** A store of 45 messages that starts with 25 system messages: the slice
    expression asks for [msgs[46:]]. *)
Lemma pruneHard_long_system_run :
  pruneHard (NewPruner None) examples.long_system_run = Panic "slice bounds out of range".
Proof. apply pruneHard_out_of_range; vm_compute; (reflexivity || lia). Qed.

(** [pruneHard] returns no error, whatever the limits. *)
Lemma pruneHard_no_error (p : Pruner) (s s' : Store) (e : error) :
  pruneHard p s = Done e s' -> e = None.
Proof.
  unfold pruneHard, mbind, M_bind, bind, gets, panic, ret. simpl.
  repeat match goal with
         | |- context [if ?b then _ else _] => destruct b
         | |- context [match slice_from ?a ?b with _ => _ end] => destruct (slice_from a b)
         end; simpl; congruence.
Qed.

(** A run of [pruneHard] that returns has either left the store alone or
    kept a suffix of the messages and recorded the prune. *)
Lemma pruneHard_outcome (p : Pruner) (s s' : Store) (e : error) :
  pruneHard p s = Done e s' ->
  s' = s \/ exists n, s' = record_prune (set_Messages (drop n (Messages s)) s).
Proof.
  unfold pruneHard, mbind, M_bind, bind, gets, panic, ret, modify, slice_from. simpl.
  repeat match goal with
         | |- context [if ?b then _ else _] => destruct b
         end; simpl; intros H; inversion H; subst; eauto.
Qed.

(** Deterministic pruning never adds messages. *)
Lemma pruneHard_never_grows (p : Pruner) (s s' : Store) (e : error) :
  pruneHard p s = Done e s' -> len (Messages s') <= len (Messages s).
Proof.
  intros H. apply pruneHard_outcome in H as [->|[n ->]]; [lia|].
  rewrite record_prune_Messages. simpl. rewrite len_drop.
  pose proof (len_nonneg (Messages s)). lia.
Qed.

(** Where no system message leads the sequence, the default limits leave 24
    messages of a longer sequence, hence at least 4. *)
Lemma pruneHard_without_system_run (c : option Client) (s : Store) :
  leading_system (Messages s) = 0%nat ->
  exists s', pruneHard (NewPruner c) s = Done None s' /\
             len (Messages s') = Z.min 24 (len (Messages s)).
Proof.
  intros Hrun. destruct (Z.le_gt_cases (len (Messages s)) 24) as [Hle|Hgt].
  - exists s. rewrite pruneHard_at_target by lia. split; [reflexivity | lia].
  - eexists. rewrite pruneHard_above_target by lia. split; [reflexivity|].
    rewrite record_prune_Messages. simpl. rewrite len_drop, Hrun. lia.
Qed.

(** C2: deterministic pruning is meant to leave at least 4 messages.  On a
    store of 25 messages that starts with 22 system messages it returns
    normally and leaves 2 messages: one message is counted for removal after
    the system run, and the run is dropped along with it. *)
Theorem pruneHard_leaves_two_of_twenty_five :
  len (Messages examples.mostly_system) = 25 /\
  exists s', pruneHard (NewPruner None) examples.mostly_system = Done None s' /\
             len (Messages s') = 2 /\
             Messages s' = drop 23 (Messages examples.mostly_system).
Proof.
  split; [reflexivity|].
  eexists. rewrite pruneHard_above_target by (vm_compute; (reflexivity || lia)).
  split; [reflexivity|]. split; reflexivity.
Qed.

(** C3: deterministic pruning is described as keeping the leading system run
    and dropping the messages that follow it.  On a store of one system
    message followed by 24 user messages the code keeps the last 23 messages
    only: the system message is removed together with the first user
    message, where the description keeps it. *)
Theorem pruneHard_drops_leading_system_message :
  let msgs := Messages examples.system_then_users in
  exists s', pruneHard (NewPruner None) examples.system_then_users = Done None s' /\
             Messages s' = drop 2 msgs /\
             pruneHard_described 24 msgs = (take 1 msgs ++ drop 2 msgs)%list /\
             Messages s' <> pruneHard_described 24 msgs.
Proof.
  intros msgs. eexists.
  rewrite pruneHard_above_target by (vm_compute; (reflexivity || lia)).
  split; [reflexivity|]. split; [reflexivity|]. split; [reflexivity|].
  intros Heq. apply (f_equal length) in Heq. vm_compute in Heq. discriminate.
Qed.

(** ** Appending a message *)

(** [AddMessage] appends the content as it is given, whatever its length. *)
Lemma AddMessage_Messages (role content : string) (now : Time) (s : Store) :
  Messages (AddMessage role content now s) =
  (Messages s ++ [ {| Role := role; Content := content; Timestamp := now |} ])%list.
Proof. reflexivity. Qed.

Lemma AddMessage_consistent (role content : string) (now : Time) (s : Store) :
  metadata_consistent (AddMessage role content now s).
Proof. split; reflexivity. Qed.

(** C7: content above the per-message cap is meant to be cut, with a
    truncation marker appended.  [AddMessage] has no such step: a content of
    51,000 bytes is stored whole and without marker. *)
Theorem AddMessage_keeps_oversized_content :
  let s := AddMessage "user" examples.oversized_content 0 (NewStore "/test/dir" 0) in
  MaxMessageLength < strlen examples.oversized_content /\
  Messages s = [ {| Role := "user"; Content := examples.oversized_content; Timestamp := 0 |} ] /\
  strlen examples.oversized_content = 51000 /\
  strings.Contains examples.oversized_content "[Content truncated" = false.
Proof.
  intros s. split; [vm_compute; reflexivity|].
  split; [reflexivity|]. split; vm_compute; reflexivity.
Qed.

(** ** The preservation predicate *)

(** A lower-cased byte is never the capital letter [R]. *)
Lemma lower_byte_not_R (c : ascii) : Ascii.eqb "R" (strings.lower_byte c) = false.
Proof.
  destruct c as [[] [] [] [] [] [] [] []]; vm_compute; reflexivity.
Qed.

(** Lower-cased text holds no occurrence of the keyword [README], which is
    spelled in capitals. *)
Lemma ToLower_never_README (content : string) :
  strings.Contains (strings.ToLower content) "README" = false.
Proof.
  induction content as [|c rest IH]; [reflexivity|].
  cbn [strings.ToLower strings.Contains]. rewrite IH, orb_false_r.
  unfold strings.HasPrefix. cbn [String.prefix].
  destruct (ascii_dec "R" (strings.lower_byte c)) as [Heq|Hne]; [|reflexivity].
  pose proof (lower_byte_not_R c) as HR. rewrite <- Heq in HR. discriminate.
Qed.

(** What [ShouldPreserve] decides: the position test, the code fence, and
    the four keywords that lower-cased text can contain. *)
Lemma ShouldPreserve_decides (s : Store) (msg : Message) (index : Z) :
  ShouldPreserve s msg index =
  (len (Messages s) - 4 <=? index)
  || strings.Contains (Content msg) "```"
  || strings.Contains (strings.ToLower (Content msg)) "analysis"
  || strings.Contains (strings.ToLower (Content msg)) "file tree"
  || strings.Contains (strings.ToLower (Content msg)) "structure"
  || strings.Contains (strings.ToLower (Content msg)) "architecture".
Proof.
  unfold ShouldPreserve. cbn [existsb].
  rewrite ToLower_never_README.
  destruct (len (Messages s) - 4 <=? index); [reflexivity|].
  destruct (strings.Contains (Content msg) "```"); [reflexivity|].
  cbn [orb]. rewrite orb_false_r, !orb_assoc. reflexivity.
Qed.

(** C8: a message whose lower-cased content contains [readme] is meant to be
    preserved.  The keyword is listed in capitals and compared with
    lower-cased text, so it never matches: an early message of a 50-message
    store that mentions the readme is not preserved. *)
Theorem ShouldPreserve_misses_readme :
  strings.Contains (strings.ToLower (Content examples.readme_message)) "readme" = true /\
  0 < len (Messages examples.fifty) - 4 /\
  ShouldPreserve examples.fifty examples.readme_message 0 = false.
Proof.
  split; [vm_compute; reflexivity|]. split; vm_compute; reflexivity.
Qed.

(** ** The size estimate and the analysis snapshot *)

Lemma ShouldPrune_reads_messages (p : Pruner) (now : Time) (s1 s2 : Store) :
  Messages s1 = Messages s2 -> ShouldPrune p now s1 = ShouldPrune p now s2.
Proof.
  intros Hm. unfold ShouldPrune, EstimateTokens. rewrite Hm. reflexivity.
Qed.


(** C9: the size estimate is a function of the messages only.  Two stores
    with the same messages have the same estimate, whatever their analysis
    snapshots; [ShouldPrune] answers the same on both, and the trigger of the
    emergency guard is the same on both. *)
Theorem EstimateTokens_ignores_snapshot (s1 s2 : Store) :
  Messages s1 = Messages s2 ->
  EstimateTokens s1 = EstimateTokens s2 /\
  (forall (p : Pruner) (now : Time), ShouldPrune p now s1 = ShouldPrune p now s2) /\
  over_emergency (EstimateTokens s1) (len (Messages s1)) =
  over_emergency (EstimateTokens s2) (len (Messages s2)).
Proof.
  intros Hm. split; [|split].
  - unfold EstimateTokens. rewrite Hm. reflexivity.
  - intros p now. apply ShouldPrune_reads_messages, Hm.
  - unfold EstimateTokens. rewrite Hm. reflexivity.
Qed.

Lemma EstimateTokens_ignores_snapshot_witness :
  let s1 := examples.fifty in
  let s2 := set_AnalysisCache (Some (mkAnalysisCache "src/" "docs" ["go.mod"])) s1 in
  AnalysisCache s1 <> AnalysisCache s2 /\
  EstimateTokens s1 = EstimateTokens s2 /\
  (forall (p : Pruner) (now : Time), ShouldPrune p now s1 = ShouldPrune p now s2) /\
  over_emergency (EstimateTokens s1) (len (Messages s1)) =
  over_emergency (EstimateTokens s2) (len (Messages s2)).
Proof.
  intros s1 s2. split; [discriminate|].
  apply (EstimateTokens_ignores_snapshot s1 s2). reflexivity.
Defined.

(** ** Removing messages by index *)

(** The removal map answers [true] exactly at the listed indices. *)
Lemma removal_fold_lookup (indices : list Z) (acc : gmap Z bool) (i : Z) :
  default false (foldl (fun toRemove idx => <[idx := true]> toRemove) acc indices !! i)
  = bool_decide (i ∈ indices) || default false (acc !! i).
Proof.
  revert acc. induction indices as [|idx indices IH]; intros acc; cbn [foldl].
  - rewrite bool_decide_eq_false_2 by apply not_elem_of_nil. reflexivity.
  - rewrite IH. destruct (decide (i = idx)) as [->|Hne].
    + rewrite lookup_insert_eq. simpl. rewrite orb_true_r.
      rewrite bool_decide_eq_true_2 by apply list_elem_of_here. reflexivity.
    + rewrite lookup_insert_ne by congruence.
      f_equal. apply bool_decide_ext. rewrite elem_of_cons. intuition congruence.
Qed.

Lemma removal_set_lookup (indices : list Z) (i : Z) :
  default false (removal_set indices !! i) = bool_decide (i ∈ indices).
Proof.
  unfold removal_set. rewrite removal_fold_lookup, lookup_empty. apply orb_false_r.
Qed.

(** The loop of the code keeps the positions the specification keeps. *)
Lemma keep_unlisted_from (indices : list Z) (k : nat) (msgs : list Message) :
  keep_unlisted (removal_set indices) (Z.of_nat k) msgs =
  snd <$> filter (fun im => Z.of_nat (fst im) ∉ indices)
                 (imap (fun i msg => ((k + i)%nat, msg)) msgs).
Proof.
  revert k. induction msgs as [|msg rest IH]; intros k; [reflexivity|].
  cbn [keep_unlisted]. rewrite imap_cons, filter_cons. cbn [fst].
  rewrite removal_set_lookup, Nat.add_0_r.
  replace (Z.of_nat k + 1) with (Z.of_nat (S k)) by lia. rewrite IH.
  assert (imap ((fun i msg => ((k + i)%nat, msg)) ∘ S) rest
          = imap (fun i msg => ((S k + i)%nat, msg)) rest) as ->.
  { apply imap_ext. intros i x _. simpl. f_equal. lia. }
  destruct (decide (Z.of_nat k ∉ indices)) as [Hout|Hin].
  - rewrite bool_decide_eq_false_2 by assumption. reflexivity.
  - rewrite bool_decide_eq_true_2 by (destruct (decide (Z.of_nat k ∈ indices)); tauto).
    reflexivity.
Qed.

Lemma keep_unlisted_unlisted (indices : list Z) (msgs : list Message) :
  keep_unlisted (removal_set indices) 0 msgs = unlisted indices msgs.
Proof. apply (keep_unlisted_from indices 0 msgs). Qed.

(** The surviving messages keep their relative order. *)
Lemma keep_unlisted_sublist (toRemove : gmap Z bool) (i : Z) (msgs : list Message) :
  sublist (keep_unlisted toRemove i msgs) msgs.
Proof.
  revert i. induction msgs as [|msg rest IH]; intros i; simpl; [constructor|].
  destruct (negb (default false (toRemove !! i))); constructor; apply IH.
Qed.

(** A message survives exactly when it stands at a position that is not
    listed. *)
Lemma elem_of_unlisted (indices : list Z) (msgs : list Message) (msg : Message) :
  msg ∈ unlisted indices msgs <->
  exists i : nat, msgs !! i = Some msg /\ Z.of_nat i ∉ indices.
Proof.
  unfold unlisted. rewrite list_elem_of_fmap. split.
  - intros ([i m] & -> & Hin). apply list_elem_of_filter in Hin as [Hout Hin].
    apply elem_of_lookup_imap in Hin as (j & y & Heq & Hj). inversion Heq; subst.
    exists j. split; assumption.
  - intros (i & Hi & Hout). exists (i, msg). split; [reflexivity|].
    apply list_elem_of_filter. split; [exact Hout|].
    apply elem_of_lookup_imap. exists i, msg. split; [reflexivity | exact Hi].
Qed.

(** Entries that denote no position change nothing. *)
Lemma unlisted_in_range (indices : list Z) (msgs : list Message) :
  unlisted indices msgs = unlisted (filter (in_range (len msgs)) indices) msgs.
Proof.
  unfold unlisted. f_equal.
  assert (forall l : list (nat * Message),
             (forall im, im ∈ l -> (fst im < length msgs)%nat) ->
             filter (fun im => Z.of_nat (fst im) ∉ indices) l =
             filter (fun im => Z.of_nat (fst im) ∉ filter (in_range (len msgs)) indices) l)
    as Hfilter.
  { induction l as [|im l IH]; intros Hl; [reflexivity|].
    rewrite !filter_cons, IH by (intros; apply Hl; right; assumption).
    specialize (Hl im (list_elem_of_here _ _)).
    assert (Z.of_nat (fst im) ∉ indices <->
            Z.of_nat (fst im) ∉ filter (in_range (len msgs)) indices) as Hiff.
    { rewrite list_elem_of_filter. unfold in_range, len. split; [tauto|].
      intros Hn Hin. apply Hn. split; [lia | exact Hin]. }
    repeat case_decide; tauto. }
  apply Hfilter. intros [i m] Hin.
  apply elem_of_lookup_imap in Hin as (j & y & Heq & Hj). inversion Heq; subst.
  simpl. eapply lookup_lt_Some, Hj.
Qed.

(** C10: for an index list no longer than the message sequence,
    [removeMessagesByIndices] returns: the store then holds exactly the
    messages whose position is not listed, in their original order, and
    entries beyond the end of the sequence (or below zero) change nothing.
    For a longer list, such as one that repeats an index, the capacity
    [len(messages) - len(indices)] of the new slice is negative and the call
    panics. *)
Theorem removeMessagesByIndices_total (indices : list Z) (s : Store) :
  (len indices <= len (Messages s) ->
   removeMessagesByIndices indices s
     = Done () (set_Messages (unlisted indices (Messages s)) s) /\
   (forall msg, msg ∈ unlisted indices (Messages s) <->
                exists i : nat, Messages s !! i = Some msg /\ Z.of_nat i ∉ indices) /\
   unlisted indices (Messages s)
     = unlisted (filter (in_range (len (Messages s))) indices) (Messages s) /\
   sublist (unlisted indices (Messages s)) (Messages s)) /\
  (len (Messages s) < len indices ->
   removeMessagesByIndices indices s = Panic "makeslice: cap out of range").
Proof.
  split; intros Hlen.
  - split; [|split; [|split]].
    + unfold removeMessagesByIndices, mbind, M_bind, bind, gets, modify. simpl.
      destruct (Z.ltb_spec (len (Messages s) - len indices) 0); [lia|].
      rewrite keep_unlisted_unlisted. reflexivity.
    + apply elem_of_unlisted.
    + apply unlisted_in_range.
    + rewrite <- keep_unlisted_unlisted. apply keep_unlisted_sublist.
  - unfold removeMessagesByIndices, mbind, M_bind, bind, gets, panic. simpl.
    destruct (Z.ltb_spec (len (Messages s) - len indices) 0); [reflexivity | lia].
Qed.

Lemma removeMessagesByIndices_total_witness :
  let s := examples.store_of (examples.numbered "user" 0 10) in
  removeMessagesByIndices [0; 2; 4; 6; 8; 12] s
    = Done () (set_Messages (unlisted [0; 2; 4; 6; 8; 12] (Messages s)) s) /\
  unlisted [0; 2; 4; 6; 8; 12] (Messages s)
    = (examples.numbered "user" 1 1 ++ examples.numbered "user" 3 1
         ++ examples.numbered "user" 5 1 ++ examples.numbered "user" 7 1
         ++ examples.numbered "user" 9 1)%list /\
  removeMessagesByIndices [0; 0; 0] (examples.store_of (examples.numbered "user" 0 2))
    = Panic "makeslice: cap out of range".
Proof.
  intros s. split; [|split].
  - apply (removeMessagesByIndices_total [0; 2; 4; 6; 8; 12] s). vm_compute. discriminate.
  - vm_compute. reflexivity.
  - apply (removeMessagesByIndices_total [0; 0; 0]). vm_compute. reflexivity.
Defined.

(** ** Reasoning about runs *)

Lemma hoare_ret {A : Type} (P : Store -> Prop) (Q : A -> Store -> Prop) (a : A) :
  (forall s, P s -> Q a s) -> hoare P (mret a) Q.
Proof. intros H s Hs. apply H, Hs. Qed.

Lemma hoare_bind {A B : Type} (P : Store -> Prop) (R : A -> Store -> Prop)
      (Q : B -> Store -> Prop) (m : M A) (k : A -> M B) :
  hoare P m R -> (forall a, hoare (R a) (k a) Q) -> hoare P (m ≫= k) Q.
Proof.
  intros Hm Hk s Hs. unfold mbind, M_bind, bind. specialize (Hm s Hs).
  destruct (m s) as [a s'|why]; [|exact I]. apply Hk, Hm.
Qed.

Lemma hoare_panic {A : Type} (P : Store -> Prop) (Q : A -> Store -> Prop) (why : string) :
  hoare P (panic why) Q.
Proof. intros s _. exact I. Qed.

Lemma hoare_pre {A : Type} (P P' : Store -> Prop) (Q : A -> Store -> Prop) (m : M A) :
  hoare P' m Q -> (forall s, P s -> P' s) -> hoare P m Q.
Proof. intros Hm HP s Hs. apply Hm, HP, Hs. Qed.

(** A returning run of a method that keeps [I]. *)
Lemma keeps_run {A : Type} (I : Store -> Prop) (m : M A) (s s' : Store) (a : A) :
  keeps I m -> I s -> m s = Done a s' -> I s'.
Proof. intros Hm Hs Hrun. specialize (Hm s Hs). rewrite Hrun in Hm. exact Hm. Qed.

(** ** The adaptive strategy and [Prune] *)

Section PruningProperties.

Variable TrimSpace : string -> string.
Variable Unmarshal : string -> list Z + string.

(** A run of [pruneWithAI] that returns an error has not touched the
    store; one that returns none has left the store alone (empty index
    list) or removed the listed positions and recorded the prune. *)
Lemma pruneWithAI_outcome (p : Pruner) (reason : string) (s s' : Store) (e : error) :
  pruneWithAI TrimSpace Unmarshal p reason s = Done e s' ->
  s' = s \/
  (e = None /\ exists indices, 0 < len indices /\
     s' = record_prune (set_Messages (unlisted indices (Messages s)) s)).
Proof.
  unfold pruneWithAI, mbind, M_bind, bind, gets, panic. cbn beta iota.
  destruct (client p) as [c|]; [|discriminate].
  destruct (ChatCompletion c _) as [response|err].
  - destruct (parsePruningResponse TrimSpace Unmarshal response) as [indices|err].
    + destruct (Z.ltb_spec 0 (len indices)) as [Hpos|Hempty].
      * unfold removeMessagesByIndices, mbind, M_bind, bind, gets, panic, modify, mret, M_ret, ret.
        cbn beta iota.
        destruct (len (Messages s) - len indices <? 0); [discriminate|].
        intros H. inversion H; subst. right. split; [reflexivity|].
        exists indices. rewrite keep_unlisted_unlisted. split; [assumption | reflexivity].
      * intros H. inversion H. left. reflexivity.
    + intros H. inversion H. left. reflexivity.
  - intros H. inversion H. left. reflexivity.
Qed.


(** An answer that lists more indices than there are messages is no error:
    the removal panics on the capacity of its new slice. *)
Lemma pruneWithAI_long_index_list (p : Pruner) (c : Client) (reason response : string)
      (indices : list Z) (s : Store) :
  client p = Some c ->
  ChatCompletion c [ {| cm_Role := "system"; cm_Content := buildPruningPrompt p reason s |} ]
    = inl response ->
  parsePruningResponse TrimSpace Unmarshal response = inl indices ->
  len (Messages s) < len indices ->
  pruneWithAI TrimSpace Unmarshal p reason s = Panic "makeslice: cap out of range".
Proof.
  intros Hc Hresp Hparse Hlong.
  unfold pruneWithAI, mbind, M_bind, bind, gets. cbn beta iota.
  rewrite Hc, Hresp, Hparse.
  pose proof (len_nonneg (Messages s)) as Hpos.
  destruct (Z.ltb_spec 0 (len indices)); [|lia].
  unfold removeMessagesByIndices, mbind, M_bind, bind, gets, panic. cbn beta iota.
  destruct (Z.ltb_spec (len (Messages s) - len indices) 0); [reflexivity | lia].
Qed.

(** A run of [Prune] that returns has returned no error, and has left the
    store alone or recorded one prune. *)
Lemma Prune_outcome (p : Pruner) (now : Time) (s s' : Store) (e : error) :
  Prune TrimSpace Unmarshal p now s = Done e s' ->
  e = None /\
  (s' = s \/ exists msgs, s' = record_prune (set_Messages msgs s)).
Proof.
  unfold Prune, mbind, M_bind, bind, gets. cbn beta iota.
  destruct (ShouldPrune p now s) as [shouldPrune reason].
  destruct shouldPrune; cbn [negb]; [|intros H; inversion H; auto].
  destruct (bool_decide (is_Some (client p)) && canUseAIPruning p s).
  - destruct (pruneWithAI TrimSpace Unmarshal p reason s) as [er s0|why] eqn:Hai;
      [|discriminate].
    apply pruneWithAI_outcome in Hai.
    destruct er as [err|].
    + destruct Hai as [->|[Hnone _]]; [|discriminate].
      intros Hhard. split; [eapply pruneHard_no_error, Hhard|].
      apply pruneHard_outcome in Hhard as [->|[n ->]]; eauto.
    + intros H. inversion H; subst. split; [reflexivity|].
      destruct Hai as [->|(_ & indices & _ & ->)]; eauto.
  - intros Hhard. split; [eapply pruneHard_no_error, Hhard|].
    apply pruneHard_outcome in Hhard as [->|[n ->]]; eauto.
Qed.



End PruningProperties.

(** ** The metadata invariant *)

Lemma keeps_ret {A : Type} (I : Store -> Prop) (a : A) : keeps I (mret a).
Proof. apply hoare_ret. auto. Qed.

Lemma keeps_panic {A : Type} (I : Store -> Prop) (why : string) : keeps I (@panic A why).
Proof. apply hoare_panic. Qed.

Lemma keeps_bind {A B : Type} (I : Store -> Prop) (m : M A) (k : A -> M B) :
  keeps I m -> (forall a, keeps I (k a)) -> keeps I (m ≫= k).
Proof. intros Hm Hk. eapply hoare_bind; [exact Hm | exact Hk]. Qed.

Lemma keeps_gets {A : Type} (I : Store -> Prop) (f : Store -> A) : keeps I (gets f).
Proof. intros s Hs. exact Hs. Qed.

Lemma keeps_modify (I : Store -> Prop) (f : Store -> Store) :
  (forall s, I s -> I (f s)) -> keeps I (modify f).
Proof. intros Hf s Hs. apply Hf, Hs. Qed.

(** Assignments that leave messages and metadata alone keep the metadata
    consistent. *)
Lemma consistent_same_content (s s' : Store) :
  Messages s' = Messages s -> Metadata s' = Metadata s ->
  metadata_consistent s -> metadata_consistent s'.
Proof.
  unfold metadata_consistent, EstimateTokens. intros -> ->. tauto.
Qed.

Lemma Reset_consistent (s : Store) : metadata_consistent (Reset s).
Proof. split; reflexivity. Qed.

Lemma NewStore_consistent (directory : string) (now : Time) :
  metadata_consistent (NewStore directory now).
Proof. split; reflexivity. Qed.

Lemma keeps_pruneHard (p : Pruner) : keeps metadata_consistent (pruneHard p).
Proof.
  intros s Hs. destruct (pruneHard p s) as [e s'|why] eqn:Hrun; [|exact I].
  apply pruneHard_outcome in Hrun as [->|[n ->]]; [exact Hs|].
  apply record_prune_consistent.
Qed.

Lemma keeps_checkEmergencyPrune (m : Manager) :
  keeps metadata_consistent (checkEmergencyPrune m).
Proof.
  unfold checkEmergencyPrune.
  apply keeps_bind; [apply keeps_gets | intros tokens].
  apply keeps_bind; [apply keeps_gets | intros messages].
  destruct (over_emergency tokens messages); [|apply keeps_ret].
  apply keeps_bind; [apply keeps_gets | intros cache].
  apply keeps_bind.
  - destruct (bool_decide (is_Some cache)); [|apply keeps_ret].
    apply keeps_bind; [apply keeps_gets | intros analysisTokens].
    destruct (tokens ÷ 2 <? analysisTokens); [|apply keeps_ret].
    apply keeps_bind; [|intros _; apply keeps_bind; [|intros _; apply keeps_gets]];
      apply keeps_modify; intros s; apply consistent_same_content; reflexivity.
  - intros tokens'. destruct (over_emergency tokens' messages); [|apply keeps_ret].
    apply keeps_bind; [apply keeps_pruneHard|].
    intros [e|]; apply keeps_ret.
Qed.

Section InvariantProperties.

Variable E : Environment.

Lemma keeps_pruneWithAI (p : Pruner) (reason : string) :
  keeps metadata_consistent
        (pruneWithAI (env_TrimSpace E) (env_Unmarshal E) p reason).
Proof.
  intros s Hs.
  destruct (pruneWithAI _ _ p reason s) as [e s'|why] eqn:Hrun; [|exact I].
  apply pruneWithAI_outcome in Hrun as [->|(_ & indices & _ & ->)]; [exact Hs|].
  apply record_prune_consistent.
Qed.

Lemma keeps_Prune (p : Pruner) (now : Time) :
  keeps metadata_consistent (Prune (env_TrimSpace E) (env_Unmarshal E) p now).
Proof.
  intros s Hs.
  destruct (Prune _ _ p now s) as [e s'|why] eqn:Hrun; [|exact I].
  apply Prune_outcome in Hrun as [_ [->|[msgs ->]]]; [exact Hs|].
  apply record_prune_consistent.
Qed.

Lemma keeps_checkAndPrune (m : Manager) (now : Time) :
  keeps metadata_consistent
        (checkAndPrune (env_TrimSpace E) (env_Unmarshal E) m now).
Proof.
  unfold checkAndPrune.
  apply keeps_bind; [apply keeps_gets | intros [shouldPrune reason]].
  destruct (negb shouldPrune); [apply keeps_ret|].
  apply keeps_bind; [apply keeps_Prune|].
  intros [e|]; apply keeps_ret.
Qed.

Lemma keeps_Save (now : Time) :
  keeps metadata_consistent (Save (env_write_context E) now).
Proof.
  unfold Save. apply keeps_bind; [|intros _; apply keeps_gets].
  apply keeps_modify. intros s. apply consistent_same_content; reflexivity.
Qed.

Lemma keeps_AnalyzeDirectory (now : Time) :
  keeps metadata_consistent (AnalyzeDirectory (env_scan_directory E) now).
Proof.
  unfold AnalyzeDirectory.
  apply keeps_bind; [apply keeps_gets | intros directory].
  destruct (env_scan_directory E directory) as [cache|err]; [|apply keeps_ret].
  apply keeps_bind; [|intros _; apply keeps_bind; [|intros _; apply keeps_ret]];
    apply keeps_modify; intros s; apply consistent_same_content; reflexivity.
Qed.

Lemma keeps_Analyze (m : Manager) (now : Time) :
  keeps metadata_consistent
        (Analyze (env_write_context E) (env_scan_directory E) m now).
Proof.
  unfold Analyze.
  apply keeps_bind; [apply keeps_AnalyzeDirectory|].
  intros [e|]; [apply keeps_ret|].
  apply keeps_bind; [apply keeps_Save|].
  intros [e|]; apply keeps_ret.
Qed.

Lemma keeps_Manager_Reset (m : Manager) (now : Time) :
  keeps metadata_consistent (Manager_Reset (env_write_context E) m now).
Proof.
  unfold Manager_Reset.
  apply keeps_bind; [apply keeps_modify; intros s _; apply Reset_consistent|].
  intros _. apply keeps_bind; [apply keeps_Save|].
  intros [e|]; apply keeps_ret.
Qed.

(** A query cycle appends the user message before anything is saved, so it
    leaves consistent metadata whatever store it starts from. *)
Lemma Query_establishes (m : Manager) (userQuery : string) (now : Time) :
  hoare (fun _ => True)
        (Query (env_TrimSpace E) (env_Unmarshal E) (env_BaseSystemPrompt E)
               (env_write_context E) m userQuery now)
        (fun _ => metadata_consistent).
Proof.
  unfold Query.
  apply hoare_bind with (R := fun _ _ => True);
    [intros s _; destruct (checkEmergencyPrune m s); exact I | intros _].
  apply hoare_bind with (R := fun _ => metadata_consistent);
    [intros s _; apply AddMessage_consistent | intros _].
  apply keeps_bind; [apply keeps_gets | intros s].
  destruct (m_client m) as [c|]; [|apply keeps_panic].
  destruct (ChatCompletion c _) as [response|err]; [|apply keeps_ret].
  apply keeps_bind;
    [apply keeps_modify; intros s0 _; apply AddMessage_consistent | intros _].
  apply keeps_bind; [apply keeps_checkEmergencyPrune | intros _].
  apply keeps_bind; [apply keeps_checkAndPrune | intros _].
  apply keeps_bind; [apply keeps_Save|].
  intros [e|]; apply keeps_ret.
Qed.

Lemma keeps_Query (m : Manager) (userQuery : string) (now : Time) :
  keeps metadata_consistent
        (Query (env_TrimSpace E) (env_Unmarshal E) (env_BaseSystemPrompt E)
               (env_write_context E) m userQuery now).
Proof. eapply hoare_pre; [apply Query_establishes | intros s _; exact I]. Qed.

(** Every mutation keeps the metadata consistent. *)
Lemma mutation_consistent (s s' : Store) :
  metadata_consistent s -> mutation E s s' -> metadata_consistent s'.
Proof.
  intros Hs Hstep.
  destruct Hstep;
    try (eapply (keeps_run metadata_consistent); [|exact Hs|eassumption]).
  - apply AddMessage_consistent.
  - apply keeps_pruneWithAI.
  - apply keeps_pruneHard.
  - apply keeps_Prune.
  - apply keeps_checkAndPrune.
  - apply keeps_checkEmergencyPrune.
  - apply keeps_AnalyzeDirectory.
  - apply keeps_Analyze.
  - apply Reset_consistent.
  - apply keeps_Manager_Reset.
  - apply keeps_Save.
  - apply keeps_Query.
Qed.

(** C5: after every mutation of a store that the program works on
    (appending a message, an adaptive or deterministic prune, an action of
    the emergency guard, caching a directory analysis, a reset, a whole
    query cycle, a save), [TotalMessages] equals the number of messages and
    [TotalTokensEstimate] equals the size estimate of the store. *)
Theorem metadata_invariant (s s' : Store) :
  reachable E s -> mutation E s s' ->
  TotalMessages (Metadata s') = len (Messages s') /\
  TotalTokensEstimate (Metadata s') = EstimateTokens s'.
Proof.
  intros Hreach Hstep. apply (mutation_consistent s s'); [|exact Hstep].
  clear Hstep s'. induction Hreach as [directory now | s0 s1 _ IH Hstep].
  - apply NewStore_consistent.
  - eapply mutation_consistent; [exact IH | exact Hstep].
Qed.

End InvariantProperties.

(** ** The query cycle *)


(** ** The emergency guard *)









Lemma metadata_invariant_witness :
  let E := examples.quiet in
  let m := examples.manager (Some (examples.answering "ok")) in
  let s := AddMessage "user" "hello" 5 (NewStore "/test/dir" 0) in
  exists s',
    Query (env_TrimSpace E) (env_Unmarshal E) (env_BaseSystemPrompt E)
          (env_write_context E) m "and then?" 7 s = Done ("ok", None) s' /\
    len (Messages s') = 3 /\
    TotalMessages (Metadata s') = len (Messages s') /\
    TotalTokensEstimate (Metadata s') = EstimateTokens s'.
Proof.
  intros E m s. eexists. split; [vm_compute; reflexivity|]. split; [reflexivity|].
  apply (metadata_invariant E s).
  - eapply reach_step; [apply reach_NewStore | apply mut_AddMessage].
  - eapply (mut_Query E m "and then?" 7). vm_compute. reflexivity.
Defined.

(** * Further properties of the pruning engine *)

(** ** When pruning is due *)

(** The age limit of the default configuration: 30 days, in nanoseconds. *)
Lemma default_age_limit : wrap (wrap (30 * 24) * Hour) = 2592000000000000.
Proof. vm_compute. reflexivity. Qed.

(** With the default limits, pruning is due exactly when a soft threshold
    is reached or the oldest message is too old. *)
Lemma ShouldPrune_default_due (c : option Client) (now : Time) (s : Store) :
  fst (ShouldPrune (NewPruner c) now s) = true <->
  40 <= len (Messages s) \/
  15000 <= EstimateTokens s \/
  (exists oldest rest, Messages s = oldest :: rest /\
                       2592000000000000 < Since now (Timestamp oldest)).
Proof.
  unfold ShouldPrune. cbn [limits NewPruner DefaultPruningLimits MaxMessages MaxTokens
                           MaxAgeDays SoftMaxMessages SoftMaxTokens].
  rewrite default_age_limit.
  destruct (Z.leb_spec 100 (len (Messages s))) as [Hhm|Hhm];
    [cbn [fst]; split; [intros _; left; lia | reflexivity]|].
  destruct (Z.leb_spec 25000 (EstimateTokens s)) as [Hht|Hht];
    [cbn [fst]; split; [intros _; right; left; lia | reflexivity]|].
  destruct (Messages s) as [|oldest rest] eqn:Hmsgs.
  - destruct (Z.leb_spec 40 (len (@nil Message))) as [Hsm|Hsm];
      [unfold len in Hsm; simpl in Hsm; lia|].
    destruct (Z.leb_spec 15000 (EstimateTokens s)) as [Hst|Hst]; cbn [fst].
    + split; [auto | reflexivity].
    + split; [discriminate|]. intros [H|[H|(o & r & H & _)]]; [lia | lia | discriminate].
  - destruct (Z.ltb_spec 2592000000000000 (Since now (Timestamp oldest))) as [Hage|Hage].
    + cbn [fst]. split; [|reflexivity]. intros _. right. right. eauto.
    + destruct (Z.leb_spec 40 (len (oldest :: rest))) as [Hsm|Hsm];
        [cbn [fst]; split; [auto | reflexivity]|].
      destruct (Z.leb_spec 15000 (EstimateTokens s)) as [Hst|Hst]; cbn [fst].
      * split; [auto | reflexivity].
      * split; [discriminate|].
        intros [H|[H|(o & r & H & Hold)]]; [lia | lia |].
        inversion H; subst. lia.
Qed.

(** X1: with the default limits the answer of [ShouldPrune] is decided by the
    soft thresholds and the age of the oldest message alone: pruning is due
    exactly when there are at least 40 messages, or the estimate is at least
    15000, or the oldest message is more than 30 days old.  (The hard
    ceilings only change the reported reason.) *)
Theorem ShouldPrune_due_iff (c : option Client) (now : Time) (s : Store) :
  fst (ShouldPrune (NewPruner c) now s) = true <->
  40 <= len (Messages s) \/
  15000 <= EstimateTokens s \/
  (exists oldest rest, Messages s = oldest :: rest /\
                       2592000000000000 < Since now (Timestamp oldest)).
Proof. apply ShouldPrune_default_due. Qed.

Lemma Since_monotone (now now' t : Time) : now <= now' -> Since now t <= Since now' t.
Proof. unfold Since. lia. Qed.

(** X2: once pruning is due it stays due while the clock advances and the
    store is not changed, whatever the limits. *)
Theorem ShouldPrune_stays_due (p : Pruner) (now now' : Time) (s : Store) :
  now <= now' ->
  fst (ShouldPrune p now s) = true ->
  fst (ShouldPrune p now' s) = true.
Proof.
  intros Hclock. unfold ShouldPrune.
  destruct (MaxMessages (limits p) <=? len (Messages s)); [reflexivity|].
  destruct (MaxTokens (limits p) <=? EstimateTokens s); [reflexivity|].
  destruct (Messages s) as [|oldest rest]; [exact (fun H => H)|].
  pose proof (Since_monotone now now' (Timestamp oldest) Hclock) as Hage.
  destruct (Z.ltb_spec (wrap (wrap (MaxAgeDays (limits p) * 24) * Hour))
                       (Since now' (Timestamp oldest))) as [Hlate|Hlate];
    [reflexivity|].
  destruct (Z.ltb_spec (wrap (wrap (MaxAgeDays (limits p) * 24) * Hour))
                       (Since now (Timestamp oldest))) as [Hearly|Hearly];
    [lia | exact (fun H => H)].
Qed.

Lemma ShouldPrune_stays_due_witness :
  fst (ShouldPrune (NewPruner None) (examples.day31 + Hour) examples.one_old_message) = true.
Proof.
  apply (ShouldPrune_stays_due (NewPruner None) examples.day31 (examples.day31 + Hour)).
  - vm_compute. discriminate.
  - vm_compute. reflexivity.
Defined.

(** [pruneHard] reads the limits of the pruner, not its client. *)
Lemma pruneHard_reads_limits (p p' : Pruner) (s : Store) :
  limits p = limits p' -> pruneHard p s = pruneHard p' s.
Proof. intros Hl. unfold pruneHard. rewrite Hl. reflexivity. Qed.

Section ServiceUse.

Variable TrimSpace : string -> string.
Variable Unmarshal : string -> list Z + string.

(** X3: outside the soft zone the generation service is not consulted.  When
    pruning is due and the store has fewer than 10 messages, or has reached a
    hard ceiling (100 messages, 25000 units), [Prune] does what the
    deterministic strategy does, whatever client the pruner holds. *)
Theorem Prune_without_service (c : option Client) (now : Time) (s : Store) :
  fst (ShouldPrune (NewPruner c) now s) = true ->
  len (Messages s) < 10 \/ 100 <= len (Messages s) \/ 25000 <= EstimateTokens s ->
  Prune TrimSpace Unmarshal (NewPruner c) now s = pruneHard (NewPruner None) s.
Proof.
  intros Hdue Hzone.
  assert (canUseAIPruning (NewPruner c) s = false) as Hcan.
  { unfold canUseAIPruning. cbn [limits NewPruner DefaultPruningLimits MaxMessages MaxTokens].
    destruct (Z.ltb_spec (len (Messages s)) 10); [reflexivity|].
    destruct (Z.leb_spec 100 (len (Messages s))); [reflexivity|].
    destruct (Z.leb_spec 25000 (EstimateTokens s)); [reflexivity | lia]. }
  unfold Prune, mbind, M_bind, bind, gets. cbn beta iota.
  destruct (ShouldPrune (NewPruner c) now s) as [due reason].
  cbn [fst] in Hdue. subst due. cbn [negb]. rewrite Hcan, andb_false_r.
  apply pruneHard_reads_limits. reflexivity.
Qed.

End ServiceUse.

Lemma Prune_without_service_witness :
  Prune (env_TrimSpace examples.quiet) (env_Unmarshal examples.quiet)
        (NewPruner (Some (examples.answering "[0]"))) examples.day31 examples.one_old_message
  = pruneHard (NewPruner None) examples.one_old_message.
Proof.
  apply (Prune_without_service (env_TrimSpace examples.quiet) (env_Unmarshal examples.quiet)).
  - vm_compute. reflexivity.
  - left. vm_compute. reflexivity.
Defined.

(** ** The deterministic strategy *)

(** A run of [pruneHard] with the default limits that returns leaves at most
    24 messages. *)
Lemma pruneHard_returns_within_target (c : option Client) (s s' : Store) (e : error) :
  pruneHard (NewPruner c) s = Done e s' -> len (Messages s') <= 24.
Proof.
  intros Hrun.
  destruct (Z.le_gt_cases (len (Messages s)) 24) as [Hle|Hgt].
  - rewrite pruneHard_at_target in Hrun by exact Hle. inversion Hrun; subst. exact Hle.
  - destruct (le_gt_dec (leading_system (Messages s)) 24) as [Hrun24|Hrun24].
    + rewrite pruneHard_above_target in Hrun by (assumption || lia).
      inversion Hrun; subst. rewrite record_prune_Messages. simpl.
      rewrite len_drop. lia.
    + rewrite pruneHard_out_of_range in Hrun by (assumption || lia). discriminate.
Qed.

(** X4: with the default limits [pruneHard] panics exactly on the stores
    that hold more than 24 messages of which more than the first 24 are
    system messages; on every other store it returns. *)
Theorem pruneHard_panics_iff (c : option Client) (s : Store) :
  (exists why, pruneHard (NewPruner c) s = Panic why) <->
  24 < len (Messages s) /\ (24 < leading_system (Messages s))%nat.
Proof.
  split.
  - intros [why Hpanic].
    destruct (Z.le_gt_cases (len (Messages s)) 24) as [Hle|Hgt].
    + rewrite pruneHard_at_target in Hpanic by exact Hle. discriminate.
    + destruct (le_gt_dec (leading_system (Messages s)) 24) as [Hrun|Hrun].
      * rewrite pruneHard_above_target in Hpanic by (assumption || lia). discriminate.
      * split; [lia | exact Hrun].
  - intros [Hlen Hrun]. eexists. apply pruneHard_out_of_range; assumption.
Qed.

(** X5: a run of [pruneHard] with the default limits that returns has
    reached the target: at most 24 messages remain, and pruning the result
    again changes nothing (not even the prune count). *)
Theorem pruneHard_reaches_target (c : option Client) (s s' : Store) (e : error) :
  pruneHard (NewPruner c) s = Done e s' ->
  len (Messages s') <= 24 /\ pruneHard (NewPruner c) s' = Done None s'.
Proof.
  intros Hrun. apply pruneHard_returns_within_target in Hrun.
  split; [exact Hrun | apply pruneHard_at_target, Hrun].
Qed.

Lemma pruneHard_reaches_target_witness :
  exists s',
    pruneHard (NewPruner None) examples.fifty = Done None s' /\
    len (Messages s') <= 24 /\ pruneHard (NewPruner None) s' = Done None s'.
Proof.
  eexists. split; [vm_compute; reflexivity|].
  eapply (pruneHard_reaches_target None examples.fifty). vm_compute. reflexivity.
Defined.

(** X6: whatever the limits, a run of [pruneHard] that returns has kept a
    suffix of the message sequence (the most recent messages, unchanged and
    in order) and has touched neither the analysis snapshot and its marker
    nor the identity of the store. *)
Theorem pruneHard_keeps_recent (p : Pruner) (s s' : Store) (e : error) :
  pruneHard p s = Done e s' ->
  Messages s' `suffix_of` Messages s /\
  AnalysisCache s' = AnalysisCache s /\
  LastAnalysisAt s' = LastAnalysisAt s /\
  Directory s' = Directory s /\
  Version s' = Version s /\
  CreatedAt s' = CreatedAt s /\
  UpdatedAt s' = UpdatedAt s.
Proof.
  intros Hrun. apply pruneHard_outcome in Hrun as [->|[n ->]].
  - repeat split; reflexivity.
  - split; [apply suffix_drop|]. repeat split; reflexivity.
Qed.

Lemma pruneHard_keeps_recent_witness :
  exists s',
    pruneHard (NewPruner None) examples.fifty = Done None s' /\
    Messages s' `suffix_of` Messages examples.fifty /\
    AnalysisCache s' = AnalysisCache examples.fifty /\
    LastAnalysisAt s' = LastAnalysisAt examples.fifty /\
    Directory s' = Directory examples.fifty /\
    Version s' = Version examples.fifty /\
    CreatedAt s' = CreatedAt examples.fifty /\
    UpdatedAt s' = UpdatedAt examples.fifty.
Proof.
  eexists. split; [vm_compute; reflexivity|].
  eapply (pruneHard_keeps_recent (NewPruner None) examples.fifty). vm_compute. reflexivity.
Defined.

(** ** Appending and resetting *)

Lemma estimate_loop_app (total : Z) (ms1 ms2 : list Message) :
  estimate_loop total (ms1 ++ ms2) = estimate_loop (estimate_loop total ms1) ms2.
Proof. unfold estimate_loop. apply fold_left_app. Qed.

(** X7: appending a message adds [len(content) / 4] to the size estimate (in
    64-bit arithmetic) and one to the message count, and the metadata
    records both; the earlier messages are not touched. *)
Theorem AddMessage_grows (role content : string) (now : Time) (s : Store) :
  let s' := AddMessage role content now s in
  EstimateTokens s' = int_add (EstimateTokens s) (strlen content ÷ 4) /\
  len (Messages s') = len (Messages s) + 1 /\
  TotalTokensEstimate (Metadata s') = int_add (EstimateTokens s) (strlen content ÷ 4) /\
  TotalMessages (Metadata s') = len (Messages s) + 1 /\
  take (length (Messages s)) (Messages s') = Messages s /\
  PruneCount (Metadata s') = PruneCount (Metadata s).
Proof.
  intros s'.
  assert (EstimateTokens s' = int_add (EstimateTokens s) (strlen content ÷ 4)) as Hest.
  { unfold s', EstimateTokens. rewrite AddMessage_Messages, estimate_loop_app. reflexivity. }
  assert (len (Messages s') = len (Messages s) + 1) as Hlen.
  { unfold s'. rewrite AddMessage_Messages. unfold len. rewrite length_app. simpl. lia. }
  split; [exact Hest|]. split; [exact Hlen|].
  split; [rewrite <- Hest; apply AddMessage_consistent|].
  split; [rewrite <- Hlen; apply AddMessage_consistent|].
  split; [|reflexivity].
  unfold s'. rewrite AddMessage_Messages. apply take_app_length.
Qed.

(** X8: a reset empties the store and keeps the prune count; after it no
    pruning is due at any time, the emergency guard does nothing, and a
    second reset changes nothing. *)
Theorem Reset_quiet (s : Store) (c : option Client) (m : Manager) (now : Time) :
  Messages (Reset s) = [] /\
  AnalysisCache (Reset s) = None /\
  LastAnalysisAt (Reset s) = None /\
  PruneCount (Metadata (Reset s)) = PruneCount (Metadata s) /\
  Directory (Reset s) = Directory s /\
  ShouldPrune (NewPruner c) now (Reset s) = (false, "") /\
  checkEmergencyPrune m (Reset s) = Done None (Reset s) /\
  Reset (Reset s) = Reset s.
Proof.
  repeat split.
Qed.

(** ** Removal by index, continued *)

(** The kept and the removed positions add up to the length, counted from
    any offset. *)
Lemma unlisted_from_length (indices : list Z) (k : nat) (msgs : list Message) :
  (length (filter (fun im => Z.of_nat (fst im) ∉ indices)
                  (imap (fun i msg => ((k + i)%nat, msg)) msgs))
   + length (filter (fun i : nat => Z.of_nat i ∈ indices) (seq k (length msgs))))%nat
  = length msgs.
Proof.
  revert k. induction msgs as [|msg rest IH]; intros k; [reflexivity|].
  rewrite imap_cons. cbn [length seq]. rewrite !filter_cons. cbn [fst].
  rewrite Nat.add_0_r.
  assert (imap ((fun i msg => ((k + i)%nat, msg)) ∘ S) rest
          = imap (fun i msg => ((S k + i)%nat, msg)) rest) as ->.
  { apply imap_ext. intros i x _. simpl. f_equal. lia. }
  specialize (IH (S k)).
  repeat case_decide; try tauto; cbn [length]; lia.
Qed.

(** X9: a removal that returns shortens the sequence by the number of
    distinct positions that are listed: repeated and out-of-range entries
    are not counted. *)
Theorem removeMessagesByIndices_length (indices : list Z) (s s' : Store) :
  removeMessagesByIndices indices s = Done () s' ->
  len (Messages s')
  = len (Messages s)
    - len (filter (fun i : nat => Z.of_nat i ∈ indices) (seq 0 (length (Messages s)))).
Proof.
  unfold removeMessagesByIndices, mbind, M_bind, bind, gets, modify, panic. cbn beta iota.
  destruct (len (Messages s) - len indices <? 0); [discriminate|].
  intros Hrun. inversion Hrun; subst. cbn [Messages set_Messages].
  rewrite (keep_unlisted_from indices 0 (Messages s) : keep_unlisted _ 0 _ = _).
  unfold len. rewrite length_fmap.
  pose proof (unlisted_from_length indices 0 (Messages s)) as Hsum. lia.
Qed.

Lemma removeMessagesByIndices_length_witness :
  let s := examples.store_of (examples.numbered "user" 0 10) in
  exists s',
    removeMessagesByIndices [3; 3; 12; -1; 7] s = Done () s' /\
    len (Messages s')
    = len (Messages s)
      - len (filter (fun i : nat => Z.of_nat i ∈ [3; 3; 12; -1; 7])
                    (seq 0 (length (Messages s)))) /\
    len (Messages s') = 8.
Proof.
  intros s. eexists. split; [vm_compute; reflexivity|].
  split; [|vm_compute; reflexivity].
  apply (removeMessagesByIndices_length [3; 3; 12; -1; 7] s). vm_compute. reflexivity.
Defined.

(** X10: what a removal leaves depends on the set of listed positions only,
    not on their order or repetition. *)
Theorem unlisted_same_set (indices indices' : list Z) (msgs : list Message) :
  (forall i : Z, i ∈ indices <-> i ∈ indices') ->
  keep_unlisted (removal_set indices) 0 msgs = keep_unlisted (removal_set indices') 0 msgs.
Proof.
  intros Hsame. rewrite !keep_unlisted_unlisted. unfold unlisted. f_equal.
  apply list_filter_iff. intros [i msg]. cbn [fst]. rewrite Hsame. reflexivity.
Qed.

Lemma unlisted_same_set_witness :
  let msgs := examples.numbered "user" 0 10 in
  keep_unlisted (removal_set [4; 0; 4; 2]) 0 msgs = keep_unlisted (removal_set [0; 2; 4]) 0 msgs.
Proof.
  intros msgs. apply (unlisted_same_set [4; 0; 4; 2] [0; 2; 4] msgs).
  intros i. rewrite !elem_of_cons, !elem_of_nil. tauto.
Defined.

Section AdaptiveStrategy.

Variable TrimSpace : string -> string.
Variable Unmarshal : string -> list Z + string.

(** What the adaptive strategy does with a decoded, non-empty answer that is
    no longer than the message sequence. *)
Lemma pruneWithAI_success (p : Pruner) (c : Client) (reason response : string)
      (indices : list Z) (s : Store) :
  client p = Some c ->
  ChatCompletion c [ {| cm_Role := "system"; cm_Content := buildPruningPrompt p reason s |} ]
    = inl response ->
  parsePruningResponse TrimSpace Unmarshal response = inl indices ->
  0 < len indices <= len (Messages s) ->
  pruneWithAI TrimSpace Unmarshal p reason s
  = Done None (record_prune (set_Messages (unlisted indices (Messages s)) s)).
Proof.
  intros Hc Hresp Hparse [Hpos Hlen].
  unfold pruneWithAI, mbind, M_bind, bind, gets. cbn beta iota.
  rewrite Hc, Hresp, Hparse.
  destruct (Z.ltb_spec 0 (len indices)); [|lia].
  unfold removeMessagesByIndices, mbind, M_bind, bind, gets, modify, mret, M_ret, ret.
  cbn beta iota.
  destruct (Z.ltb_spec (len (Messages s) - len indices) 0); [lia|].
  rewrite keep_unlisted_unlisted. reflexivity.
Qed.

(** X11: the adaptive strategy applies the answer of the service as it is.
    For a decoded, non-empty index list no longer than the message sequence
    the store keeps exactly the unlisted positions; none of the preservation
    rules of the prompt is enforced, so an answer that lists every position
    (the last four included) leaves the store without messages. *)
Theorem pruneWithAI_applies_answer (p : Pruner) (c : Client) (reason response : string)
        (indices : list Z) (s : Store) :
  client p = Some c ->
  ChatCompletion c [ {| cm_Role := "system"; cm_Content := buildPruningPrompt p reason s |} ]
    = inl response ->
  parsePruningResponse TrimSpace Unmarshal response = inl indices ->
  0 < len indices <= len (Messages s) ->
  exists s',
    pruneWithAI TrimSpace Unmarshal p reason s = Done None s' /\
    (forall msg, msg ∈ Messages s' <->
                 exists i : nat, Messages s !! i = Some msg /\ Z.of_nat i ∉ indices) /\
    sublist (Messages s') (Messages s) /\
    ((forall i : nat, (i < length (Messages s))%nat -> Z.of_nat i ∈ indices) ->
     Messages s' = []).
Proof.
  intros Hc Hresp Hparse Hlen. eexists.
  split; [apply (pruneWithAI_success p c reason response indices s); assumption|].
  rewrite record_prune_Messages. cbn [Messages set_Messages].
  split; [apply elem_of_unlisted|].
  split; [rewrite <- keep_unlisted_unlisted; apply keep_unlisted_sublist|].
  intros Hall. apply elem_of_nil_inv. intros msg Hin.
  apply elem_of_unlisted in Hin as (i & Hi & Hout).
  apply Hout, Hall. eapply lookup_lt_Some, Hi.
Qed.

(** X12: an answer whose entries denote no position (all negative or beyond
    the end) removes nothing and still counts as a prune: the messages stay
    and [PruneCount] is incremented. *)
Theorem pruneWithAI_counts_empty_removal (p : Pruner) (c : Client)
        (reason response : string) (indices : list Z) (s : Store) :
  client p = Some c ->
  ChatCompletion c [ {| cm_Role := "system"; cm_Content := buildPruningPrompt p reason s |} ]
    = inl response ->
  parsePruningResponse TrimSpace Unmarshal response = inl indices ->
  0 < len indices <= len (Messages s) ->
  (forall idx, idx ∈ indices -> ~ in_range (len (Messages s)) idx) ->
  exists s',
    pruneWithAI TrimSpace Unmarshal p reason s = Done None s' /\
    Messages s' = Messages s /\
    PruneCount (Metadata s') = int_add (PruneCount (Metadata s)) 1.
Proof.
  intros Hc Hresp Hparse Hlen Hout. eexists.
  split; [apply (pruneWithAI_success p c reason response indices s); assumption|].
  split; [|reflexivity].
  rewrite record_prune_Messages. cbn [Messages set_Messages].
  rewrite unlisted_in_range.
  assert (filter (in_range (len (Messages s))) indices = []) as ->.
  { apply elem_of_nil_inv. intros idx Hin.
    apply list_elem_of_filter in Hin as [Hrange Hin]. exact (Hout idx Hin Hrange). }
  unfold unlisted.
  assert (forall l : list (nat * Message),
             filter (fun im => Z.of_nat (fst im) ∉ @nil Z) l = l) as Hall.
  { induction l as [|im l IH]; [reflexivity|].
    rewrite filter_cons_True by apply not_elem_of_nil. rewrite IH. reflexivity. }
  rewrite Hall. clear Hall.
  assert (forall (k : nat) (l : list Message),
             snd <$> imap (fun i msg => ((k + i)%nat, msg)) l = l) as Hsnd.
  { intros k l. revert k. induction l as [|msg l IH]; intros k; [reflexivity|].
    rewrite imap_cons. cbn [fmap list_fmap snd]. f_equal.
    rewrite <- (IH (S k)) at 2. f_equal. apply imap_ext. intros i x _. simpl.
    f_equal. lia. }
  exact (Hsnd 0%nat (Messages s)).
Qed.

End AdaptiveStrategy.

Lemma pruneWithAI_applies_answer_witness :
  let p := NewPruner (Some (examples.answering "[0, 1]")) in
  exists s',
    pruneWithAI (fun r => r) (samples.decoding [0; 1]) p "soft limit" samples.ten
      = Done None s' /\
    (forall msg, msg ∈ Messages s' <->
                 exists i : nat, Messages samples.ten !! i = Some msg /\ Z.of_nat i ∉ [0; 1]) /\
    sublist (Messages s') (Messages samples.ten) /\
    ((forall i : nat, (i < length (Messages samples.ten))%nat -> Z.of_nat i ∈ [0; 1]) ->
     Messages s' = []).
Proof.
  intros p.
  apply (pruneWithAI_applies_answer (fun r => r) (samples.decoding [0; 1]) p
           (examples.answering "[0, 1]") "soft limit" "[0, 1]" [0; 1] samples.ten).
  - reflexivity.
  - reflexivity.
  - reflexivity.
  - vm_compute. split; [reflexivity | discriminate].
Defined.

Lemma pruneWithAI_counts_empty_removal_witness :
  let p := NewPruner (Some (examples.answering "[10, -1]")) in
  exists s',
    pruneWithAI (fun r => r) (samples.decoding [10; -1]) p "soft limit" samples.ten
      = Done None s' /\
    Messages s' = Messages samples.ten /\
    PruneCount (Metadata s') = int_add (PruneCount (Metadata samples.ten)) 1.
Proof.
  intros p.
  apply (pruneWithAI_counts_empty_removal (fun r => r) (samples.decoding [10; -1]) p
           (examples.answering "[10, -1]") "soft limit" "[10, -1]" [10; -1] samples.ten).
  - reflexivity.
  - reflexivity.
  - reflexivity.
  - vm_compute. split; [reflexivity | discriminate].
  - intros idx Hin Hrange. unfold in_range in Hrange.
    assert (len (Messages samples.ten) = 10) as Hten by (vm_compute; reflexivity).
    rewrite Hten in Hrange. rewrite !elem_of_cons, elem_of_nil in Hin. lia.
Defined.

(** What a returning run of [pruneHard] keeps, in the form the guard
    needs. *)
Lemma pruneHard_keeps_suffix_frame (p : Pruner) (s s' : Store) (e : error) :
  pruneHard p s = Done e s' ->
  Messages s' `suffix_of` Messages s /\
  AnalysisCache s' = AnalysisCache s /\
  LastAnalysisAt s' = LastAnalysisAt s.
Proof.
  intros Hrun. apply pruneHard_outcome in Hrun as [->|[n ->]].
  - repeat split; reflexivity.
  - split; [apply suffix_drop|]. split; reflexivity.
Qed.

(** ** The emergency guard, continued *)

(** The guard in one equation: below the ceilings nothing happens; above
    them the snapshot is shed when it is estimated above half of the total,
    and the deterministic strategy runs in either case. *)
Lemma checkEmergencyPrune_cases (m : Manager) (s : Store) :
  checkEmergencyPrune m s =
  if over_emergency (EstimateTokens s) (len (Messages s)) then
    pruneHard (NewPruner (m_client m))
              (if bool_decide (is_Some (AnalysisCache s))
                  && (EstimateTokens s ÷ 2 <? estimateAnalysisCacheTokens s)
               then set_LastAnalysisAt None (set_AnalysisCache None s)
               else s)
  else Done None s.
Proof.
  unfold checkEmergencyPrune, mbind, M_bind, bind, gets, modify. cbn beta iota.
  destruct (over_emergency (EstimateTokens s) (len (Messages s))) eqn:Hover;
    [|reflexivity].
  destruct (bool_decide (is_Some (AnalysisCache s))); cbn [andb].
  - cbn beta iota.
    destruct (EstimateTokens s ÷ 2 <? estimateAnalysisCacheTokens s); cbn beta iota.
    + change (EstimateTokens (set_LastAnalysisAt None (set_AnalysisCache None s)))
        with (EstimateTokens s).
      rewrite Hover. destruct (pruneHard _ _) as [[e|] s'|why]; reflexivity.
    + unfold mret, M_ret, ret. rewrite Hover.
      destruct (pruneHard _ _) as [[e|] s'|why]; reflexivity.
  - unfold mret, M_ret, ret. rewrite Hover.
    destruct (pruneHard _ _) as [[e|] s'|why]; reflexivity.
Qed.

(** X13: whenever the guard returns, at most 150 messages remain; when it
    was triggered (by size or by count), at most 24 remain.  The guard
    returns no error. *)
Theorem checkEmergencyPrune_bounds_count (m : Manager) (s s' : Store) (e : error) :
  checkEmergencyPrune m s = Done e s' ->
  e = None /\
  len (Messages s') <= 150 /\
  (over_emergency (EstimateTokens s) (len (Messages s)) = true -> len (Messages s') <= 24).
Proof.
  rewrite checkEmergencyPrune_cases.
  destruct (over_emergency (EstimateTokens s) (len (Messages s))) eqn:Hover.
  - intros Hrun. pose proof (pruneHard_no_error _ _ _ _ Hrun) as He.
    apply pruneHard_returns_within_target in Hrun.
    split; [exact He|]. split; [lia | intros _; exact Hrun].
  - intros Hrun. inversion Hrun; subst. split; [reflexivity|].
    split; [|discriminate].
    unfold over_emergency, emergencyMessages in Hover.
    apply orb_false_iff in Hover as [_ Hcount]. apply Z.ltb_ge in Hcount. exact Hcount.
Qed.

Lemma checkEmergencyPrune_bounds_count_witness :
  let s := examples.store_of (examples.numbered "user" 0 160) in
  exists s',
    checkEmergencyPrune (examples.manager None) s = Done None s' /\
    len (Messages s') <= 150 /\
    (over_emergency (EstimateTokens s) (len (Messages s)) = true -> len (Messages s') <= 24).
Proof.
  intros s. eexists. split; [vm_compute; reflexivity|].
  eapply (checkEmergencyPrune_bounds_count (examples.manager None) s).
  vm_compute. reflexivity.
Defined.

(** X14: the guard discards the snapshot only above a ceiling and only when
    the snapshot is estimated above half of the total; otherwise snapshot
    and marker are what they were.  In both cases the messages that remain
    are a suffix of the earlier sequence. *)
Theorem checkEmergencyPrune_snapshot (m : Manager) (s s' : Store) (e : error) :
  checkEmergencyPrune m s = Done e s' ->
  Messages s' `suffix_of` Messages s /\
  ((AnalysisCache s' = AnalysisCache s /\ LastAnalysisAt s' = LastAnalysisAt s) \/
   (AnalysisCache s' = None /\ LastAnalysisAt s' = None /\
    over_emergency (EstimateTokens s) (len (Messages s)) = true /\
    EstimateTokens s ÷ 2 < estimateAnalysisCacheTokens s)).
Proof.
  rewrite checkEmergencyPrune_cases.
  destruct (over_emergency (EstimateTokens s) (len (Messages s))) eqn:Hover.
  - destruct (bool_decide (is_Some (AnalysisCache s))
              && (EstimateTokens s ÷ 2 <? estimateAnalysisCacheTokens s)) eqn:Hshed;
      intros Hrun; apply pruneHard_keeps_suffix_frame in Hrun as (Hsuffix & Hcache & Hmark).
    + apply andb_true_iff in Hshed as [_ Hhalf]. apply Z.ltb_lt in Hhalf.
      split; [exact Hsuffix|]. right. auto.
    + split; [exact Hsuffix|]. left. auto.
  - intros Hrun. inversion Hrun; subst. split; [reflexivity|]. left. auto.
Qed.

Lemma checkEmergencyPrune_snapshot_witness :
  let s := set_AnalysisCache (Some (mkAnalysisCache "src/" "docs" ["go.mod"]))
             (examples.store_of (examples.numbered "user" 0 160)) in
  exists s',
    checkEmergencyPrune (examples.manager None) s = Done None s' /\
    Messages s' `suffix_of` Messages s /\
    ((AnalysisCache s' = AnalysisCache s /\ LastAnalysisAt s' = LastAnalysisAt s) \/
     (AnalysisCache s' = None /\ LastAnalysisAt s' = None /\
      over_emergency (EstimateTokens s) (len (Messages s)) = true /\
      EstimateTokens s ÷ 2 < estimateAnalysisCacheTokens s)).
Proof.
  intros s. eexists. split; [vm_compute; reflexivity|].
  eapply (checkEmergencyPrune_snapshot (examples.manager None) s).
  vm_compute. reflexivity.
Defined.

(** ** Check-and-prune and the query cycle *)

Section QueryCycle.

Variable E : Environment.

(** X15: [checkAndPrune] returns no error: neither strategy returns one, so
    the wrapped error of a failed pruning never reaches the query cycle.
    When pruning is not due it leaves the store as it is. *)
Theorem checkAndPrune_no_error (m : Manager) (now : Time) (s s' : Store) (e : error) :
  checkAndPrune (env_TrimSpace E) (env_Unmarshal E) m now s = Done e s' ->
  e = None /\
  (fst (ShouldPrune (NewPruner (m_client m)) now s) = false -> s' = s).
Proof.
  unfold checkAndPrune, mbind, M_bind, bind, gets. cbn beta iota.
  destruct (ShouldPrune (NewPruner (m_client m)) now s) as [due reason] eqn:Hdue.
  destruct due; cbn [negb fst].
  - destruct (Prune _ _ _ now s) as [e0 s0|why] eqn:Hrun; [|discriminate].
    apply Prune_outcome in Hrun as [-> _].
    intros H. inversion H; subst. split; [reflexivity | discriminate].
  - intros H. inversion H; subst. split; reflexivity.
Qed.


(** X17: a query cycle that returns leaves [TotalMessages] equal to the
    number of messages and [TotalTokensEstimate] equal to the size estimate,
    whatever the metadata of the store it started from. *)
Theorem Query_repairs_metadata (m : Manager) (userQuery : string) (now : Time)
        (s s' : Store) (r : string * error) :
  Query (env_TrimSpace E) (env_Unmarshal E) (env_BaseSystemPrompt E)
        (env_write_context E) m userQuery now s = Done r s' ->
  TotalMessages (Metadata s') = len (Messages s') /\
  TotalTokensEstimate (Metadata s') = EstimateTokens s'.
Proof.
  intros Hrun. pose proof (Query_establishes E m userQuery now s I) as Hq.
  rewrite Hrun in Hq. exact Hq.
Qed.

(** X18: when the generation service fails, the query cycle returns its
    error; the store then holds the user message on top of what the guard
    left, and is not saved ([UpdatedAt] is what it was). *)
Theorem Query_service_failure (m : Manager) (c : Client) (userQuery err : string)
        (now : Time) (s s0 : Store) (e0 : error) :
  m_client m = Some c ->
  checkEmergencyPrune m s = Done e0 s0 ->
  (forall request, ChatCompletion c request = inr err) ->
  Query (env_TrimSpace E) (env_Unmarshal E) (env_BaseSystemPrompt E)
        (env_write_context E) m userQuery now s
  = Done ("", Some ("API request failed: " ++ err)) (AddMessage "user" userQuery now s0) /\
  UpdatedAt (AddMessage "user" userQuery now s0) = UpdatedAt s.
Proof.
  intros Hc Hguard Hfail. split.
  - unfold Query, mbind, M_bind, bind, modify, gets. cbn beta iota.
    rewrite Hguard, Hc, Hfail. reflexivity.
  - cbn [AddMessage UpdatedAt set_TotalTokensEstimate set_TotalMessages set_Metadata
         set_Messages].
    rewrite checkEmergencyPrune_cases in Hguard.
    destruct (over_emergency _ _);
      [|inversion Hguard; reflexivity].
    apply pruneHard_outcome in Hguard as [->|[n ->]];
      destruct (bool_decide _ && _); reflexivity.
Qed.


End QueryCycle.

Lemma checkAndPrune_no_error_witness :
  let s' := record_prune (set_Messages (drop 26 (Messages examples.fifty)) examples.fifty) in
  checkAndPrune (env_TrimSpace examples.quiet) (env_Unmarshal examples.quiet)
                (examples.manager None) 0 examples.fifty = Done None s' /\
  (@None string = None /\
   (fst (ShouldPrune (NewPruner (m_client (examples.manager None))) 0 examples.fifty) = false ->
    s' = examples.fifty)).
Proof.
  intros s'.
  assert (checkAndPrune (env_TrimSpace examples.quiet) (env_Unmarshal examples.quiet)
                        (examples.manager None) 0 examples.fifty = Done None s') as Hrun
      by (vm_compute; reflexivity).
  split; [exact Hrun|].
  exact (checkAndPrune_no_error examples.quiet (examples.manager None) 0
                                examples.fifty s' None Hrun).
Defined.


Lemma Query_repairs_metadata_witness :
  let E := examples.quiet in
  let m := examples.manager (Some (examples.answering "ok")) in
  let s := set_TotalMessages 99 examples.one_old_message in
  exists s',
    TotalMessages (Metadata s) <> len (Messages s) /\
    Query (env_TrimSpace E) (env_Unmarshal E) (env_BaseSystemPrompt E)
          (env_write_context E) m "hi" 5 s = Done ("ok", None) s' /\
    TotalMessages (Metadata s') = len (Messages s') /\
    TotalTokensEstimate (Metadata s') = EstimateTokens s'.
Proof.
  intros E m s. eexists. split; [vm_compute; discriminate|].
  split; [vm_compute; reflexivity|].
  eapply (Query_repairs_metadata E m "hi" 5 s). vm_compute. reflexivity.
Defined.

Lemma Query_service_failure_witness :
  let E := examples.quiet in
  let c := examples.unreachable_service in
  let m := examples.manager (Some c) in
  let s := examples.one_old_message in
  Query (env_TrimSpace E) (env_Unmarshal E) (env_BaseSystemPrompt E)
        (env_write_context E) m "hi" 5 s
  = Done ("", Some ("API request failed: " ++ "connection refused"))
         (AddMessage "user" "hi" 5 s) /\
  UpdatedAt (AddMessage "user" "hi" 5 s) = UpdatedAt s.
Proof.
  intros E c m s.
  apply (Query_service_failure E m c "hi" "connection refused" 5 s s None).
  - reflexivity.
  - vm_compute. reflexivity.
  - intros request. reflexivity.
Defined.


(** ** Strings *)

Lemma append_cons (a : ascii) (x y : string) : String a x ++ y = String a (x ++ y).
Proof. reflexivity. Qed.

Lemma append_nil (y : string) : "" ++ y = y.
Proof. reflexivity. Qed.

Lemma prefix_nil (s : string) : String.prefix "" s = true.
Proof. destruct s; reflexivity. Qed.

Lemma prefix_cons (a : ascii) (x s : string) :
  String.prefix (String a x) (String a s) = String.prefix x s.
Proof. cbn [String.prefix]. destruct (ascii_dec a a); [reflexivity | congruence]. Qed.

Lemma prefix_append (x y : string) : String.prefix x (x ++ y) = true.
Proof.
  induction x as [|a x IH]; [apply prefix_nil|].
  rewrite append_cons, prefix_cons. exact IH.
Qed.

Lemma prefix_refl (x : string) : String.prefix x x = true.
Proof.
  induction x as [|a x IH]; [reflexivity|]. rewrite prefix_cons. exact IH.
Qed.

Lemma prefix_append_l (x s b : string) :
  String.prefix x s = true -> String.prefix x (s ++ b) = true.
Proof.
  revert s. induction x as [|a x IH]; intros s; [intros _; apply prefix_nil|].
  destruct s as [|c s]; [discriminate|].
  rewrite append_cons. cbn [String.prefix].
  destruct (ascii_dec a c); [apply IH | discriminate].
Qed.

Lemma Contains_of_prefix (s x : string) :
  strings.HasPrefix s x = true -> strings.Contains s x = true.
Proof.
  intros H. destruct s; cbn [strings.Contains]; rewrite H; reflexivity.
Qed.

Lemma Contains_append_r (a s x : string) :
  strings.Contains s x = true -> strings.Contains (a ++ s) x = true.
Proof.
  intros H. induction a as [|c a IH]; [exact H|].
  rewrite append_cons. cbn [strings.Contains]. rewrite IH. apply orb_true_r.
Qed.

Lemma Contains_append_l (s b x : string) :
  strings.Contains s x = true -> strings.Contains (s ++ b) x = true.
Proof.
  induction s as [|c s IH]; intros H.
  - cbn [strings.Contains] in H. unfold strings.HasPrefix in H.
    destruct x; [|discriminate]. rewrite append_nil.
    apply Contains_of_prefix. apply prefix_nil.
  - rewrite append_cons. cbn [strings.Contains] in *.
    apply orb_true_iff in H as [H|H].
    + unfold strings.HasPrefix in *. rewrite <- append_cons.
      rewrite (prefix_append_l x (String c s) b H). reflexivity.
    + rewrite (IH H). apply orb_true_r.
Qed.

(** ** The pruning prompt *)

(** A message that is not a system message is listed under its position. *)
Lemma summary_lines_lists (k : Z) (msgs : list Message) (i : nat) (msg : Message) :
  msgs !! i = Some msg ->
  Role msg <> "system" ->
  strings.Contains
    (summary_lines k msgs)
    ("[" ++ itoa (k + Z.of_nat i) ++ "] " ++ Role msg ++ ": "
         ++ (if 200 <? strlen (Content msg)
             then str_take 200 (Content msg) ++ "..." else Content msg)
         ++ nl ++ nl) = true.
Proof.
  revert k i. induction msgs as [|m rest IH]; intros k i Hi Hrole; [discriminate|].
  cbn [summary_lines]. destruct i as [|i].
  - inversion Hi; subst. apply String.eqb_neq in Hrole. rewrite Hrole.
    replace (k + Z.of_nat 0) with k by lia.
    apply Contains_of_prefix. apply prefix_append.
  - cbn [lookup list_lookup] in Hi.
    replace (k + Z.of_nat (S i)) with ((k + 1) + Z.of_nat i) by lia.
    destruct (String.eqb (Role m) "system").
    + apply IH; assumption.
    + apply Contains_append_r. apply IH; assumption.
Qed.

(** X20: the prompt of the adaptive strategy numbers the messages by their
    position in the store: every message that is not a system message is
    listed as [[i] role: content], with [i] its index in the message
    sequence and the content cut after 200 bytes.  The indices the service
    is asked for are therefore the positions that the removal uses. *)
Theorem buildPruningPrompt_numbers_positions (p : Pruner) (reason : string) (s : Store)
        (i : nat) (msg : Message) :
  Messages s !! i = Some msg ->
  Role msg <> "system" ->
  strings.Contains
    (buildPruningPrompt p reason s)
    ("[" ++ itoa (Z.of_nat i) ++ "] " ++ Role msg ++ ": "
         ++ (if 200 <? strlen (Content msg)
             then str_take 200 (Content msg) ++ "..." else Content msg)
         ++ nl ++ nl) = true.
Proof.
  intros Hi Hrole. unfold buildPruningPrompt. cbv zeta.
  do 11 apply Contains_append_r. apply Contains_append_l.
  do 3 apply Contains_append_r.
  exact (summary_lines_lists 0 (Messages s) i msg Hi Hrole).
Qed.

Lemma buildPruningPrompt_numbers_positions_witness :
  strings.Contains
    (buildPruningPrompt (NewPruner None) "soft limit" samples.ten)
    ("[7] user: message 7" ++ nl ++ nl) = true.
Proof.
  apply (buildPruningPrompt_numbers_positions (NewPruner None) "soft limit" samples.ten 7
           {| Role := "user"; Content := "message 7"; Timestamp := 0 |}).
  - reflexivity.
  - discriminate.
Defined.

(** ** The outbound request *)

(** X21: the request assembled for the service starts with one freshly built
    system message whose content begins with the instruction preamble; all
    other entries are the messages of the history that are not system
    messages, in their order, so stored system messages are never replayed;
    and the request ends with the latest message of the history when that is
    not a system message. *)
Theorem BuildMessages_shape (BaseSystemPrompt : string -> string -> string)
        (directory osType : string) (history : list ChatMessage)
        (analysis : option AnalysisCache_t) :
  exists sys rest,
    prompt.BuildMessages BaseSystemPrompt directory osType history analysis = sys :: rest /\
    cm_Role sys = "system" /\
    strings.HasPrefix (cm_Content sys) (BaseSystemPrompt osType directory) = true /\
    Forall (fun msg => cm_Role msg <> "system") rest /\
    sublist rest history /\
    (forall msg, msg ∈ history -> cm_Role msg <> "system" -> msg ∈ rest) /\
    (forall earlier msg, history = (earlier ++ [msg])%list -> cm_Role msg <> "system" ->
                         last (sys :: rest) = Some msg).
Proof.
  unfold prompt.BuildMessages. do 2 eexists. split; [reflexivity|].
  split; [reflexivity|]. split.
  { unfold strings.HasPrefix. destruct analysis; cbn [cm_Content].
    - apply prefix_append.
    - apply prefix_refl. }
  split.
  { apply Forall_forall. intros msg Hin. apply list_elem_of_filter in Hin as [H _]. exact H. }
  split; [apply sublist_filter|]. split.
  - intros msg Hin Hrole. apply list_elem_of_filter. split; assumption.
  - intros earlier msg -> Hrole. rewrite filter_app.
    rewrite (filter_cons_True _ msg []) by exact Hrole.
    rewrite filter_nil, app_comm_cons. apply last_snoc.
Qed.

(** * Properties of the surrounding packages *)

(** ** Configuration *)

Section ConfigurationProperties.

Variable TrimSpace : string -> string.
Variable read_lines : string -> (list string * error) + string.
Variable UserHomeDir : string + string.
Variable Join : list string -> string.
Variable Getenv : string -> string.






End ConfigurationProperties.

(** ** The service client *)

Section ClientProperties.

Variable Marshal : string -> list ChatMessage -> string + string.
Variable makeRequest : nat -> string -> string + string.

(** X24: [ChatCompletion] makes at most three attempts and returns the
    answer of the first that succeeds, after sleeping 0, 1 or 1 + 4 seconds
    in all; when all three fail it returns the error of the third, wrapped,
    after 5 seconds of sleep.  What a fourth attempt would bring plays no
    role. *)
Theorem ChatCompletion_retries (model body : string) (messages : list ChatMessage) :
  Marshal model messages = inl body ->
  let run := api.ChatCompletion Marshal makeRequest model messages in
  (forall r, makeRequest 0%nat body = inl r -> run = (inl r, 0)) /\
  (forall e0 r, makeRequest 0%nat body = inr e0 -> makeRequest 1%nat body = inl r ->
                run = (inl r, 1 * api.Second)) /\
  (forall e0 e1 r, makeRequest 0%nat body = inr e0 -> makeRequest 1%nat body = inr e1 ->
                   makeRequest 2%nat body = inl r ->
                   run = (inl r, 5 * api.Second)) /\
  (forall e0 e1 e2, makeRequest 0%nat body = inr e0 -> makeRequest 1%nat body = inr e1 ->
                    makeRequest 2%nat body = inr e2 ->
                    run = (inr ("failed after 3 attempts: " ++ e2), 5 * api.Second)).
Proof.
  intros Hbody run. unfold run, api.ChatCompletion. rewrite Hbody.
  repeat split.
  - intros r H0. cbn [api.attempts Nat.ltb Nat.leb]. rewrite H0. reflexivity.
  - intros e0 r H0 H1. cbn [api.attempts Nat.ltb Nat.leb]. rewrite H0, H1. reflexivity.
  - intros e0 e1 r H0 H1 H2. cbn [api.attempts Nat.ltb Nat.leb]. rewrite H0, H1, H2.
    reflexivity.
  - intros e0 e1 e2 H0 H1 H2. cbn [api.attempts Nat.ltb Nat.leb]. rewrite H0, H1, H2.
    reflexivity.
Qed.

End ClientProperties.


Lemma ChatCompletion_retries_witness :
  api.ChatCompletion samples.body_of samples.third_time "gpt-4o" []
    = (inl "pong", 5 * api.Second).
Proof.
  destruct (ChatCompletion_retries samples.body_of samples.third_time "gpt-4o" "gpt-4o" [])
    as (_ & _ & Hthird & _); [reflexivity|].
  apply (Hthird "timeout" "timeout"); reflexivity.
Defined.

(** ** The directory analyzer *)

Lemma strlen_append (x y : string) : strlen (x ++ y) = strlen x + strlen y.
Proof.
  unfold strlen. induction x as [|c x IH]; [rewrite append_nil; cbn [String.length]; lia|].
  rewrite append_cons. cbn [String.length]. lia.
Qed.

Lemma strlen_take (n : nat) (s : string) : strlen (str_take n s) <= Z.of_nat n.
Proof.
  unfold strlen, str_take. revert s. induction n as [|n IH]; intros s.
  - destruct s; cbn [substring String.length]; lia.
  - destruct s as [|c s]; cbn [substring String.length]; [lia|].
    specialize (IH s). lia.
Qed.

Lemma strlen_nonneg (s : string) : 0 <= strlen s.
Proof. unfold strlen. lia. Qed.

Lemma tree_notice_length : strlen analyzer.tree_notice = 95.
Proof. reflexivity. Qed.

Lemma readme_notice_length : strlen analyzer.readme_notice = 32.
Proof. reflexivity. Qed.

(** The estimate of a snapshot within the analyzer's caps. *)
Lemma estimateAnalysisCacheTokens_capped (cache : AnalysisCache_t) (s : Store) :
  strlen (FileTree cache) <= 10095 ->
  strlen (ReadmeContent cache) <= 5032 ->
  len (PrimaryConfigs cache) <= 10 ->
  AnalysisCache s = Some cache ->
  estimateAnalysisCacheTokens s <= 4341.
Proof.
  intros Htree Hreadme Hconfigs Hcache.
  unfold estimateAnalysisCacheTokens. rewrite Hcache. cbv zeta.
  pose proof (strlen_nonneg (FileTree cache)) as Htree0.
  pose proof (strlen_nonneg (ReadmeContent cache)) as Hreadme0.
  assert (0 <= len (PrimaryConfigs cache)) as Hconfigs0 by (unfold len; lia).
  unfold int_add, div_3_5.
  rewrite !Z.quot_div_nonneg by lia.
  assert (0 <= (2 * strlen (FileTree cache)) `div` 7 <= 2884) as Ht
    by (split; [apply Z.div_pos; lia | apply Z.lt_succ_r, Z.div_lt_upper_bound; lia]).
  assert (0 <= (2 * strlen (ReadmeContent cache)) `div` 7 <= 1437) as Hr
    by (split; [apply Z.div_pos; lia | apply Z.lt_succ_r, Z.div_lt_upper_bound; lia]).
  rewrite (wrap_small (len (PrimaryConfigs cache) * 2))
    by (unfold int_min, int_max; lia).
  rewrite (wrap_small (0 + _)) by (unfold int_min, int_max; lia).
  rewrite (wrap_small (0 + _ + _)) by (unfold int_min, int_max; lia).
  rewrite wrap_small by (unfold int_min, int_max; lia).
  lia.
Qed.

Lemma TrimRight_slash_append (s : string) :
  analyzer.TrimRight_slash (s ++ "/") = analyzer.TrimRight_slash s.
Proof.
  induction s as [|c s IH]; [reflexivity|].
  rewrite append_cons. cbn [analyzer.TrimRight_slash]. rewrite IH. reflexivity.
Qed.

Lemma Trim_slash_append (s : string) :
  analyzer.Trim_slash (s ++ "/") = analyzer.Trim_slash s.
Proof.
  unfold analyzer.Trim_slash. induction s as [|c s IH]; [reflexivity|].
  rewrite append_cons. cbn [analyzer.TrimLeft_slash].
  destruct (Ascii.eqb c "/"); [exact IH|].
  rewrite <- append_cons. apply TrimRight_slash_append.
Qed.

Lemma HasSuffix_slash_cons (c : ascii) (rest : string) :
  strings.HasSuffix (String c rest) "/" =
  match rest with
  | EmptyString => Ascii.eqb c "/"
  | String _ _ => strings.HasSuffix rest "/"
  end.
Proof.
  unfold strings.HasSuffix. destruct rest as [|d rest].
  - cbn. destruct (Ascii.eqb c "/"); reflexivity.
  - cbn [String.length Nat.leb Nat.sub andb].
    rewrite Nat.sub_0_r. reflexivity.
Qed.

Lemma TrimRight_slash_no_slash (s : string) :
  strings.HasSuffix (analyzer.TrimRight_slash s) "/" = false.
Proof.
  induction s as [|c s IH]; [reflexivity|].
  cbn [analyzer.TrimRight_slash].
  destruct (Ascii.eqb c "/") eqn:Hc; cbn [andb].
  - destruct (String.eqb_spec (analyzer.TrimRight_slash s) "") as [Hs|Hs]; [reflexivity|].
    rewrite HasSuffix_slash_cons.
    destruct (analyzer.TrimRight_slash s); [congruence | exact IH].
  - rewrite HasSuffix_slash_cons.
    destruct (analyzer.TrimRight_slash s); [exact Hc | exact IH].
Qed.

Lemma Contains_middle (before name after : string) :
  strings.Contains (before ++ name ++ after) name = true.
Proof.
  apply Contains_append_r. apply Contains_of_prefix. apply prefix_append.
Qed.

Section AnalyzerProperties.

Variable TrimSpace : string -> string.
Variable Base : string -> string.
Variable ReadDir : string -> option (list analyzer.DirEntry).
Variable read_lines : string -> (list string * error) + string.
Variable ReadFile : string -> option string.
Variable Stat : string -> bool.

(** The levels that [walkDirectory] passes to [walk] are all that the
    recursion of the code can use: more levels change nothing. *)
Lemma walk_levels (a : analyzer.Analyzer) (levels : nat) (relPath : string) (depth : Z) :
  (Z.to_nat (analyzer.maxDepth a + 1 - depth) <= levels)%nat ->
  analyzer.walk ReadDir a levels relPath depth = analyzer.walkDirectory ReadDir a relPath depth.
Proof.
  unfold analyzer.walkDirectory.
  revert relPath depth. induction levels as [|levels IH]; intros relPath depth Hlevels.
  - replace (Z.to_nat (analyzer.maxDepth a + 1 - depth)) with 0%nat by lia. reflexivity.
  - destruct (Z.ltb_spec (analyzer.maxDepth a) depth) as [Hdeep|Hdeep].
    + replace (Z.to_nat (analyzer.maxDepth a + 1 - depth)) with 0%nat by lia.
      cbn [analyzer.walk]. apply Z.ltb_lt in Hdeep. rewrite Hdeep. reflexivity.
    + replace (Z.to_nat (analyzer.maxDepth a + 1 - depth))
        with (S (Z.to_nat (analyzer.maxDepth a + 1 - (depth + 1)))) by lia.
      cbn [analyzer.walk].
      destruct (analyzer.maxDepth a <? depth); [reflexivity|].
      destruct (ReadDir _) as [entries|]; [|reflexivity].
      induction entries as [|entry entries IHentries]; [reflexivity|].
      cbn [fold_right]. rewrite IHentries. f_equal.
      rewrite IH by lia. reflexivity.
Qed.

Lemma generateFileTree_bounded (a : analyzer.Analyzer) :
  strlen (analyzer.generateFileTree Base ReadDir a) <= 10095.
Proof.
  unfold analyzer.generateFileTree. cbv zeta.
  destruct (Z.ltb_spec analyzer.maxTreeSize (strlen ((Base (analyzer.rootDir a) ++ "/" ++ nl)
              ++ analyzer.walkDirectory ReadDir a "" 0))) as [Hlong|Hshort].
  - rewrite strlen_append, tree_notice_length.
    pose proof (strlen_take (Z.to_nat analyzer.maxTreeSize)
                  ((Base (analyzer.rootDir a) ++ "/" ++ nl)
                     ++ analyzer.walkDirectory ReadDir a "" 0)) as Hcut.
    unfold analyzer.maxTreeSize in *. lia.
  - unfold analyzer.maxTreeSize in *. lia.
Qed.

Lemma findReadme_bounded (a : analyzer.Analyzer) :
  strlen (analyzer.findReadme ReadFile a) <= 5032.
Proof.
  unfold analyzer.findReadme. cbv zeta.
  induction analyzer.ReadmeFiles as [|filename rest IH]; [vm_compute; discriminate|].
  cbn [fold_right].
  destruct (ReadFile _) as [content|]; [|exact IH].
  destruct (Z.ltb_spec 5000 (strlen content)) as [Hlong|Hshort]; [|lia].
  rewrite strlen_append, readme_notice_length.
  pose proof (strlen_take (Z.to_nat 5000) content). lia.
Qed.

Lemma detectConfigFiles_bounded (a : analyzer.Analyzer) :
  len (analyzer.detectConfigFiles Stat a) <= 10.
Proof.
  unfold analyzer.detectConfigFiles, len.
  pose proof (filter_length_le
                (fun filename => Stat (analyzer.Join (analyzer.rootDir a) filename))
                analyzer.ConfigFiles) as Hle.
  change (length analyzer.ConfigFiles) with 10%nat in Hle. lia.
Qed.

(** X25: whatever the directory holds, the snapshot that [Analyze] returns
    is small: the file tree has at most 10000 bytes and the 95 of the
    notice, the README at most 5000 and the 32 of its notice, at most the 10
    known configuration files are listed, and [estimateAnalysisCacheTokens]
    of a store that carries the snapshot is at most 4341. *)
Theorem Analyze_snapshot_bounded (a : analyzer.Analyzer) (s : Store) :
  let cache := analyzer.Analyze TrimSpace Base ReadDir read_lines ReadFile Stat a in
  strlen (FileTree cache) <= analyzer.maxTreeSize + strlen analyzer.tree_notice /\
  strlen (ReadmeContent cache) <= 5000 + strlen analyzer.readme_notice /\
  len (PrimaryConfigs cache) <= len analyzer.ConfigFiles /\
  estimateAnalysisCacheTokens (set_AnalysisCache (Some cache) s) <= 4341.
Proof.
  intros cache.
  assert (strlen (FileTree cache) <= 10095) as Htree by apply generateFileTree_bounded.
  assert (strlen (ReadmeContent cache) <= 5032) as Hreadme by apply findReadme_bounded.
  assert (len (PrimaryConfigs cache) <= 10) as Hconfigs by apply detectConfigFiles_bounded.
  rewrite tree_notice_length, readme_notice_length.
  change (len analyzer.ConfigFiles) with 10. unfold analyzer.maxTreeSize.
  repeat split; try lia.
  apply (estimateAnalysisCacheTokens_capped cache); auto.
Qed.

(** X26: the guard never sheds a snapshot that the analyzer has taken when
    the messages are estimated at 8682 tokens or more, so never when it was
    triggered by size (above 37500 tokens): the analyzer's caps keep the
    snapshot below half of such a total.  Only a run triggered by the
    message count, on a small total, can shed it. *)
Theorem checkEmergencyPrune_keeps_scanned_snapshot
        (m : Manager) (a : analyzer.Analyzer) (s s' : Store) (e : error) :
  AnalysisCache s
    = Some (analyzer.Analyze TrimSpace Base ReadDir read_lines ReadFile Stat a) ->
  8682 <= EstimateTokens s ->
  checkEmergencyPrune m s = Done e s' ->
  AnalysisCache s' = AnalysisCache s /\ LastAnalysisAt s' = LastAnalysisAt s.
Proof.
  intros Hcache Htokens. rewrite checkEmergencyPrune_cases.
  assert (estimateAnalysisCacheTokens s <= 4341) as Hsmall.
  { apply (estimateAnalysisCacheTokens_capped
             (analyzer.Analyze TrimSpace Base ReadDir read_lines ReadFile Stat a) s);
      [apply generateFileTree_bounded | apply findReadme_bounded
      | apply detectConfigFiles_bounded | exact Hcache]. }
  assert ((EstimateTokens s ÷ 2 <? estimateAnalysisCacheTokens s) = false) as Hhalf.
  { apply Z.ltb_ge. rewrite Z.quot_div_nonneg by lia.
    transitivity 4341; [exact Hsmall|]. apply Z.div_le_lower_bound; lia. }
  rewrite Hhalf, andb_false_r.
  destruct (over_emergency (EstimateTokens s) (len (Messages s))).
  - intros Hrun. apply pruneHard_keeps_suffix_frame in Hrun. tauto.
  - intros Hrun. inversion Hrun; subst. split; reflexivity.
Qed.

End AnalyzerProperties.

Lemma checkEmergencyPrune_keeps_scanned_snapshot_witness :
  exists s',
    checkEmergencyPrune (examples.manager None) samples.crowded = Done None s' /\
    len (Messages s') = 24 /\
    AnalysisCache s' = Some samples.project_snapshot.
Proof.
  eexists. split; [vm_compute; reflexivity|]. split; [vm_compute; reflexivity|].
  eapply (checkEmergencyPrune_keeps_scanned_snapshot
            samples.trimmed samples.project_base samples.project_dirs samples.project_lines
            samples.project_file samples.project_stat
            (examples.manager None) (analyzer.NewAnalyzer "/p") samples.crowded).
  - reflexivity.
  - vm_compute. discriminate.
  - vm_compute. reflexivity.
Defined.

(** X27: the branch of [matchPattern] for directory patterns is never
    taken, because the pattern has lost its trailing slashes before the
    test; a pattern with a trailing slash therefore matches exactly what
    the pattern without it matches, files included. *)
Theorem matchPattern_ignores_trailing_slash (path pattern : string) :
  strings.HasSuffix (analyzer.Trim_slash pattern) "/" = false /\
  analyzer.matchPattern path (pattern ++ "/") = analyzer.matchPattern path pattern.
Proof.
  split.
  - apply TrimRight_slash_no_slash.
  - unfold analyzer.matchPattern. rewrite Trim_slash_append. reflexivity.
Qed.

(** X28: [IsIgnored] looks for the always-ignored names anywhere in the
    path, not per path element: a path that contains one of them as a
    fragment is ignored, whatever the patterns of [.gitignore] are. *)
Theorem IsIgnored_by_fragment (g : analyzer.GitignoreParser) (before name after : string) :
  name ∈ analyzer.commonIgnores ->
  analyzer.IsIgnored g (before ++ name ++ after) = true.
Proof.
  intros Hname. unfold analyzer.IsIgnored.
  assert (existsb (fun pattern => strings.Contains (before ++ name ++ after) pattern)
                  analyzer.commonIgnores = true) as Hfound.
  { apply existsb_exists. exists name. split.
    - apply list_elem_of_In. exact Hname.
    - apply Contains_middle. }
  rewrite Hfound. reflexivity.
Qed.

Lemma IsIgnored_by_fragment_witness :
  analyzer.IsIgnored (analyzer.NewGitignoreParser "/p") ("re" ++ "build" ++ ".sh") = true.
Proof.
  apply (IsIgnored_by_fragment (analyzer.NewGitignoreParser "/p") "re" "build" ".sh").
  unfold analyzer.commonIgnores. rewrite !elem_of_cons. tauto.
Defined.

(** ** Loading and saving *)

Section PersistenceProperties.

Variable UserHomeDir : string + string.
Variable DirectoryPath : string -> string.
Variable Join : list string -> string.
Variable MkdirAll : string -> error.
Variable MarshalIndent : Store -> string + string.
Variable Unmarshal : string -> Store + string.
Variable read_failure : string -> option string.
Variable write_failure : string -> option string.

(** What a [Save] without error has done. *)
Lemma Save_success (now : Time) (s s1 : Store) (files files1 : persistence.Files) :
  persistence.Save UserHomeDir DirectoryPath Join MkdirAll MarshalIndent write_failure
                   now s files = (None, s1, files1) ->
  s1 = set_UpdatedAt now s /\
  exists data,
    MarshalIndent s1 = inl data /\
    files1 = <[persistence.getContextFilePath UserHomeDir DirectoryPath Join (Directory s)
               := data]> files.
Proof.
  unfold persistence.Save. cbv zeta.
  destruct UserHomeDir as [homeDir|err]; [|discriminate].
  destruct (MkdirAll _) as [err|]; [discriminate|].
  destruct (MarshalIndent (set_UpdatedAt now s)) as [data|err] eqn:Hdata; [|discriminate].
  destruct (write_failure _) as [err|]; [discriminate|].
  intros Hsave. inversion Hsave; subst. split; [reflexivity|].
  exists data. split; [exact Hdata | reflexivity].
Qed.

(** X29: what [Load] finds after a [Save] without error, when the decoder
    reads back what the encoder wrote of the saved store and the file can
    be read: the directory of the store loads as the saved store (which is
    the store with the time of the save as [UpdatedAt]); a directory with
    another context file loads as before; and a different directory whose
    name hashes to the same context file fails to load, with a mismatch
    error that names both directories. *)
Theorem Save_then_Load (now now' : Time) (s s1 : Store) (files files1 : persistence.Files) :
  persistence.Save UserHomeDir DirectoryPath Join MkdirAll MarshalIndent write_failure
                   now s files = (None, s1, files1) ->
  (forall data, MarshalIndent s1 = inl data -> Unmarshal data = inl s1) ->
  read_failure (persistence.getContextFilePath UserHomeDir DirectoryPath Join (Directory s))
    = None ->
  s1 = set_UpdatedAt now s /\
  persistence.Load UserHomeDir DirectoryPath Join Unmarshal read_failure
                   (Directory s) now' files1 = inl s1 /\
  (forall d,
      persistence.getContextFilePath UserHomeDir DirectoryPath Join d
        <> persistence.getContextFilePath UserHomeDir DirectoryPath Join (Directory s) ->
      persistence.Load UserHomeDir DirectoryPath Join Unmarshal read_failure d now' files1
        = persistence.Load UserHomeDir DirectoryPath Join Unmarshal read_failure d now' files)
  /\
  (forall d,
      d <> Directory s ->
      persistence.getContextFilePath UserHomeDir DirectoryPath Join d
        = persistence.getContextFilePath UserHomeDir DirectoryPath Join (Directory s) ->
      persistence.Load UserHomeDir DirectoryPath Join Unmarshal read_failure d now' files1
        = inr ("context file directory mismatch: expected " ++ d
                 ++ ", got " ++ Directory s)).
Proof.
  intros Hsave Hround Hread.
  apply Save_success in Hsave as (Hs1 & data & Hdata & Hfiles).
  specialize (Hround data Hdata).
  assert (Directory s1 = Directory s) as Hdir by (rewrite Hs1; reflexivity).
  split; [exact Hs1|]. split; [|split].
  - unfold persistence.Load, persistence.Files. cbv zeta.
    rewrite Hfiles, (lookup_insert_eq (M:=gmap string) files), Hread, Hround.
    rewrite Hdir, String.eqb_refl. reflexivity.
  - intros d Hother. unfold persistence.Load, persistence.Files. cbv zeta.
    rewrite Hfiles, (lookup_insert_ne (M:=gmap string) files) by congruence. reflexivity.
  - intros d Hd Hsame. unfold persistence.Load, persistence.Files. cbv zeta.
    rewrite Hsame, Hfiles, (lookup_insert_eq (M:=gmap string) files), Hread, Hround, Hdir.
    apply not_eq_sym, String.eqb_neq in Hd. rewrite Hd. reflexivity.
Qed.

(** X30: [Load] returns only stores of the directory it was asked for.
    Without a context file it returns the fresh store of [NewStore];
    otherwise the store it returns is the decoded content of the file. *)
Theorem Load_returns_requested_directory
        (directory : string) (now : Time) (files : persistence.Files) (store : Store) :
  persistence.Load UserHomeDir DirectoryPath Join Unmarshal read_failure
                   directory now files = inl store ->
  Directory store = directory /\
  ((files !! persistence.getContextFilePath UserHomeDir DirectoryPath Join directory = None /\
    store = NewStore directory now) \/
   (exists data,
       files !! persistence.getContextFilePath UserHomeDir DirectoryPath Join directory
         = Some data /\
       Unmarshal data = inl store)).
Proof.
  unfold persistence.Load. cbv zeta.
  destruct (files !! persistence.getContextFilePath UserHomeDir DirectoryPath Join directory)
    as [data|].
  - destruct (read_failure _); [discriminate|].
    destruct (Unmarshal data) as [decoded|err] eqn:Hdecoded; [|discriminate].
    destruct (String.eqb_spec (Directory decoded) directory) as [Hdir|Hdir];
      [|discriminate].
    cbn [negb]. intros Hload. inversion Hload; subst.
    split; [reflexivity|]. right. exists data. split; [reflexivity | exact Hdecoded].
  - intros Hload. inversion Hload; subst. split; [reflexivity|]. left. split; reflexivity.
Qed.

End PersistenceProperties.

Lemma Save_then_Load_witness :
  let path :=
    persistence.getContextFilePath samples.home samples.digest samples.slash_join
                                   "/test/dir" in
  path = "/home/u/.config/ask/contexts/9f2c11aa.json" /\
  persistence.Load samples.home samples.digest samples.slash_join samples.decode
                   samples.no_failure "/test/dir" 9 (<[path := "{}"]> ∅)
    = inl (set_UpdatedAt 5 samples.ten).
Proof.
  intros path. split; [reflexivity|].
  refine (proj1 (proj2 (Save_then_Load
            samples.home samples.digest samples.slash_join samples.mkdir_ok
            samples.encode samples.decode samples.no_failure samples.no_failure
            5 9 samples.ten (set_UpdatedAt 5 samples.ten) ∅ (<[path := "{}"]> ∅) _ _ _))).
  - reflexivity.
  - intros data _. reflexivity.
  - reflexivity.
Defined.

Lemma Load_returns_requested_directory_witness :
  Directory (NewStore "/elsewhere" 9) = "/elsewhere".
Proof.
  apply (Load_returns_requested_directory samples.home samples.digest samples.slash_join
           samples.decode samples.no_failure "/elsewhere" 9 ∅ (NewStore "/elsewhere" 9)).
  reflexivity.
Defined.
